(** * Storage layer of the finance tracker: salaries and expenses

    A shallow embedding of the storage module of the server: the persistent
    backend [PostgresStorage] (statements issued through the query builder
    that [server/db.ts] exports as [db]) and the ephemeral backend
    [InMemoryStorage], followed by the properties of the storage contract that
    hold, or fail, on them. *)

From Stdlib Require Import ZArith QArith String List Lia Sorting.Sorted Permutation.
From stdpp Require Import base option list sorting pretty.

Open Scope string_scope.
Open Scope Z_scope.

(** ** Values of the host language

    The methods are untyped at run time: an amount may arrive as a number or as
    a string, a date as a [Date] or as a string, and any property may be
    missing.  Record fields therefore hold values, not typed data. *)

(** A number is NaN, an infinity or a finite value.  Every finite double is a
    rational, so [Fin] over-approximates the finite doubles; rounding is left
    to the operations that produce numbers ([StringToNumber] below), and the
    two zeros are identified. *)
Inductive number :=
  | NaN
  | Inf (negative : bool)
  | Fin (q : Q).

(** [VDate tv] is a [Date] object whose time value is [tv] milliseconds since
    the epoch, [None] being the invalid date.  [VQueryResult n] is the result
    object the database driver resolves a statement without [returning()] to;
    [n] is its [rowCount] property. *)
Inductive value :=
  | VUndefined
  | VNull
  | VBool (b : bool)
  | VNumber (n : number)
  | VString (s : string)
  | VDate (tv : option Z)
  | VQueryResult (rowCount : Z).

(** What the engine and its environment decide: how a string converts to a
    number, how a string parses as a date, the calendar year of a time value in
    the local time zone, and the clock.  [Date_now k] is the time observed by
    the [k]-th evaluation of [new Date()] since the process started. *)
Class Runtime := {
  StringToNumber : string -> number;
  Date_parse : string -> option Z;
  YearFromTime : Z -> Z;
  Date_now : nat -> Z
}.

(** The clock never runs backwards. *)
Definition monotone_clock {rt : Runtime} : Prop :=
  forall i j : nat, (i <= j)%nat -> Date_now i <= Date_now j.

Section Conversions.
Context {rt : Runtime}.

(** [Number(v)] *)
Definition Number (v : value) : number :=
  match v with
  | VUndefined => NaN
  | VNull => Fin 0
  | VBool b => if b then Fin 1 else Fin 0
  | VNumber n => n
  | VString s => StringToNumber s
  | VDate (Some t) => Fin (inject_Z t)
  | VDate None => NaN
  | VQueryResult _ => NaN   (* "[object Object]" is not a numeric literal *)
  end.

(** Truthiness, as tested by [||] and [? :]. *)
Definition truthy (v : value) : bool :=
  match v with
  | VUndefined | VNull => false
  | VBool b => b
  | VNumber NaN => false
  | VNumber (Inf _) => true
  | VNumber (Fin q) => negb (Qeq_bool q 0)
  | VString s => negb (String.eqb s "")
  | VDate _ | VQueryResult _ => true
  end.

(** [a || b] *)
Definition or_else (a b : value) : value := if truthy a then a else b.

(** The time value a number denotes: truncated, and NaN outside the range of
    dates. *)
Definition TimeClip (n : number) : option Z :=
  match n with
  | NaN | Inf _ => None
  | Fin q =>
      let t := Z.quot (Qnum q) (Z.pos (Qden q)) in
      if Z.abs t <=? 8640000000000000 then Some t else None
  end.

(** [new Date(v)] *)
Definition Date_of (v : value) : value :=
  match v with
  | VDate tv => VDate tv
  | VString s => VDate (Date_parse s)
  | VQueryResult _ => VDate None
  | _ => VDate (TimeClip (Number v))
  end.

(** [a > n] for a number [n]: [a] is converted to a number first, and a
    comparison with NaN is false. *)
Definition greater_than (a : value) (n : Q) : bool :=
  match Number a with
  | NaN | Inf true => false
  | Inf false => true
  | Fin q => negb (Qle_bool q n)
  end.

Definition is_number (v : value) : Prop := exists n, v = VNumber n.
Definition is_date (v : value) : Prop := exists tv, v = VDate tv.
End Conversions.

(** [VInt z] is the number [z]. *)
Definition VInt (z : Z) : value := VNumber (Fin (inject_Z z)).

(** ** Records *)

(** [interface Salary] *)
Module Salary.
Record t := mk {
  id : Z;
  amount : value;
  month : value;
  year : value;
  notes : value;
  date : value;
  createdAt : value
}.
End Salary.

(** [interface Expense] *)
Module Expense.
Record t := mk {
  id : Z;
  amount : value;
  category : value;
  description : value;
  date : value;
  createdAt : value
}.
End Expense.

(** The argument objects ([InsertSalary], [Omit<Salary, 'id' | 'createdAt'>],
    [Partial<...>]): every property may be absent ([None]), and a property
    that is present may still hold [undefined]. *)
Module SalaryData.
Record t := mk {
  amount : option value;
  month : option value;
  year : option value;
  notes : option value;
  date : option value
}.
Definition empty : t := mk None None None None None.
End SalaryData.

Module ExpenseData.
Record t := mk {
  amount : option value;
  category : option value;
  description : option value;
  date : option value
}.
Definition empty : t := mk None None None None.
End ExpenseData.

(** Reading a property of an object: an absent property reads [undefined]. *)
Definition prop (o : option value) : value := default VUndefined o.

(** One property of [{...old, ...data}]: a property present in [data] (even
    holding [undefined]) replaces the old one. *)
Definition spread (data : option value) (old : value) : value :=
  match data with
  | Some v => v
  | None => old
  end.

(** ** Arrays *)

(** [arr.findIndex(p)]: the first index whose element satisfies [p], or -1. *)
Fixpoint findIndex {A} (p : A -> bool) (arr : list A) : Z :=
  match arr with
  | [] => -1
  | x :: rest =>
      if p x then 0
      else let i := findIndex p rest in if i =? -1 then -1 else i + 1
  end.

(** ** Computations

    A method reads the clock and reads and writes the state of its backend. *)
Record World (S : Type) := mkWorld { heap : S; ticks : nat }.
Arguments mkWorld {S}.
Arguments heap {S}.
Arguments ticks {S}.

Definition M (S A : Type) : Type := World S -> A * World S.

Definition ret {S A} (a : A) : M S A := fun w => (a, w).
Definition bind {S A B} (m : M S A) (k : A -> M S B) : M S B :=
  fun w => let (a, w') := m w in k a w'.
Definition get {S} : M S S := fun w => (heap w, w).
Definition put {S} (s : S) : M S unit := fun w => (tt, mkWorld s (ticks w)).

Notation "'let*' x ':=' m 'in' k" := (bind m (fun x => k))
  (at level 10, x pattern, m at level 100, k at level 200).

(** [new Date()] *)
Definition Date_new {rt : Runtime} {S} : M S value :=
  fun w => (VDate (Some (Date_now (ticks w))), mkWorld (heap w) (Datatypes.S (ticks w))).

(** The date [new Date()] yields when evaluated in world [w]. *)
Definition call_time {rt : Runtime} {S} (w : World S) : value :=
  VDate (Some (Date_now (ticks w))).

(** [new Date().getFullYear()] *)
Definition current_year {rt : Runtime} {S} : M S value :=
  fun w => (VInt (YearFromTime (Date_now (ticks w))), mkWorld (heap w) (Datatypes.S (ticks w))).

(** [c ? new Date(v) : new Date()] *)
Definition Date_of_or_now {rt : Runtime} {S} (c : bool) (v : value) : M S value :=
  if c then ret (Date_of v) else Date_new.

(** [a || b] where [b] has an effect, which happens only if [a] is falsy. *)
Definition or_elseM {S} (a : value) (b : M S value) : M S value :=
  if truthy a then ret a else b.

(** ** The ephemeral backend

    The three identifier counters are modelled as unbounded integers; the
    source's are doubles, on which [++] is exact below 2^53. *)
Module InMemoryStorage.
Record t := mk {
  salaries : list Salary.t;
  expenses : list Expense.t;
  indianExpenses : list Expense.t;
  salaryId : Z;
  expenseId : Z;
  indianExpenseId : Z
}.

(** The field initialisers of the class. *)
Definition new : t := mk [] [] [] 1 1 1.

Definition set_salaries (l : list Salary.t) (s : t) : t :=
  mk l (expenses s) (indianExpenses s) (salaryId s) (expenseId s) (indianExpenseId s).
Definition set_expenses (l : list Expense.t) (s : t) : t :=
  mk (salaries s) l (indianExpenses s) (salaryId s) (expenseId s) (indianExpenseId s).
Definition set_indianExpenses (l : list Expense.t) (s : t) : t :=
  mk (salaries s) (expenses s) l (salaryId s) (expenseId s) (indianExpenseId s).

(** [this.salaryId++] and its two siblings: the old value is the result. *)
Definition next_salaryId : M t Z :=
  let* s := get in
  let* _ := put (mk (salaries s) (expenses s) (indianExpenses s)
                    (salaryId s + 1) (expenseId s) (indianExpenseId s)) in
  ret (salaryId s).
Definition next_expenseId : M t Z :=
  let* s := get in
  let* _ := put (mk (salaries s) (expenses s) (indianExpenses s)
                    (salaryId s) (expenseId s + 1) (indianExpenseId s)) in
  ret (expenseId s).
Definition next_indianExpenseId : M t Z :=
  let* s := get in
  let* _ := put (mk (salaries s) (expenses s) (indianExpenses s)
                    (salaryId s) (expenseId s) (indianExpenseId s + 1)) in
  ret (indianExpenseId s).

Section Methods.
Context {rt : Runtime}.

Definition getSalaries : M t (list Salary.t) :=
  let* s := get in ret (salaries s).

(** The body of the [try] block cannot throw on the values modelled here,
    so the [catch] clause (log and rethrow) is never entered. *)
Definition createSalary (data : SalaryData.t) : M t Salary.t :=
  let* i := next_salaryId in
  let amount := VNumber (Number (or_else (prop (SalaryData.amount data)) (VInt 0))) in
  let month := or_else (prop (SalaryData.month data)) (VString "") in
  let* year := or_elseM (prop (SalaryData.year data)) current_year in
  let notes := or_else (prop (SalaryData.notes data)) (VString "") in
  let* date := Date_of_or_now (truthy (prop (SalaryData.date data)))
                              (prop (SalaryData.date data)) in
  let* createdAt := Date_new in
  let salary := Salary.mk i amount month year notes date createdAt in
  let* s := get in
  let* _ := put (set_salaries (salaries s ++ [salary]) s) in
  ret salary.

Definition addSalary (data : SalaryData.t) : M t Salary.t :=
  let* i := next_salaryId in
  let amount := VNumber (Number (or_else (prop (SalaryData.amount data)) (VInt 0))) in
  let month := or_else (prop (SalaryData.month data)) (VString "") in
  let* year := or_elseM (prop (SalaryData.year data)) current_year in
  let notes := or_else (prop (SalaryData.notes data)) (VString "") in
  let* date := Date_of_or_now (truthy (prop (SalaryData.date data)))
                              (prop (SalaryData.date data)) in
  let* createdAt := Date_new in
  let salary := Salary.mk i amount month year notes date createdAt in
  let* s := get in
  let* _ := put (set_salaries (salaries s ++ [salary]) s) in
  ret salary.

(** [{...salary, ...data, amount: ..., date: ...}] *)
Definition mergeSalary (salary : Salary.t) (data : SalaryData.t) : Salary.t :=
  Salary.mk
    (Salary.id salary)
    (match prop (SalaryData.amount data) with
     | VUndefined => Salary.amount salary
     | a => VNumber (Number a)
     end)
    (spread (SalaryData.month data) (Salary.month salary))
    (spread (SalaryData.year data) (Salary.year salary))
    (spread (SalaryData.notes data) (Salary.notes salary))
    (if truthy (prop (SalaryData.date data))
     then Date_of (prop (SalaryData.date data))
     else Salary.date salary)
    (Salary.createdAt salary).

(** [None] is the [null] result.  The index found is within the array
    (lemma [findIndex_lookup]), so the last branch is never taken. *)
Definition updateSalary (id : Z) (data : SalaryData.t) : M t (option Salary.t) :=
  let* s := get in
  let index := findIndex (fun x => Salary.id x =? id) (salaries s) in
  if index =? -1 then ret None
  else
    match salaries s !! Z.to_nat index with
    | Some salary =>
        let updatedSalary := mergeSalary salary data in
        let* _ := put (set_salaries (<[Z.to_nat index := updatedSalary]> (salaries s)) s) in
        ret (Some updatedSalary)
    | None => ret None
    end.

Definition deleteSalary (id : Z) : M t bool :=
  let* s := get in
  let index := findIndex (fun x => Salary.id x =? id) (salaries s) in
  if index =? -1 then ret false
  else
    let* _ := put (set_salaries (delete (Z.to_nat index) (salaries s)) s) in
    ret true.

Definition getExpenses : M t (list Expense.t) :=
  let* s := get in ret (expenses s).

Definition getIndianExpenses : M t (list Expense.t) :=
  let* s := get in ret (indianExpenses s).

Definition createExpense (data : ExpenseData.t) : M t Expense.t :=
  let* i := next_expenseId in
  let amount := VNumber (Number (prop (ExpenseData.amount data))) in
  let category := prop (ExpenseData.category data) in
  let description := or_else (prop (ExpenseData.description data)) (VString "") in
  let date := Date_of (prop (ExpenseData.date data)) in
  let* createdAt := Date_new in
  let expense := Expense.mk i amount category description date createdAt in
  let* s := get in
  let* _ := put (set_expenses (expenses s ++ [expense]) s) in
  ret expense.

Definition addExpense (data : ExpenseData.t) : M t Expense.t :=
  createExpense data.

(** [{...expense, ...data, amount: ..., date: ...}] *)
Definition mergeExpense (expense : Expense.t) (data : ExpenseData.t) : Expense.t :=
  Expense.mk
    (Expense.id expense)
    (match prop (ExpenseData.amount data) with
     | VUndefined => Expense.amount expense
     | a => VNumber (Number a)
     end)
    (spread (ExpenseData.category data) (Expense.category expense))
    (spread (ExpenseData.description data) (Expense.description expense))
    (if truthy (prop (ExpenseData.date data))
     then Date_of (prop (ExpenseData.date data))
     else Expense.date expense)
    (Expense.createdAt expense).

Definition updateExpense (id : Z) (data : ExpenseData.t) : M t (option Expense.t) :=
  let* s := get in
  let index := findIndex (fun x => Expense.id x =? id) (expenses s) in
  if index =? -1 then ret None
  else
    match expenses s !! Z.to_nat index with
    | Some expense =>
        let updatedExpense := mergeExpense expense data in
        let* _ := put (set_expenses (<[Z.to_nat index := updatedExpense]> (expenses s)) s) in
        ret (Some updatedExpense)
    | None => ret None
    end.

Definition deleteExpense (id : Z) : M t bool :=
  let* s := get in
  let index := findIndex (fun x => Expense.id x =? id) (expenses s) in
  if index =? -1 then ret false
  else
    let* _ := put (set_expenses (delete (Z.to_nat index) (expenses s)) s) in
    ret true.

Definition createIndianExpense (data : ExpenseData.t) : M t Expense.t :=
  let* i := next_indianExpenseId in
  let amount := VNumber (Number (prop (ExpenseData.amount data))) in
  let category := prop (ExpenseData.category data) in
  let description := or_else (prop (ExpenseData.description data)) (VString "") in
  let date := Date_of (prop (ExpenseData.date data)) in
  let* createdAt := Date_new in
  let expense := Expense.mk i amount category description date createdAt in
  let* s := get in
  let* _ := put (set_indianExpenses (indianExpenses s ++ [expense]) s) in
  ret expense.

Definition deleteIndianExpense (id : Z) : M t bool :=
  let* s := get in
  let index := findIndex (fun x => Expense.id x =? id) (indianExpenses s) in
  if index =? -1 then ret false
  else
    let* _ := put (set_indianExpenses (delete (Z.to_nat index) (indianExpenses s)) s) in
    ret true.
End Methods.
End InMemoryStorage.

(** ** The store behind the persistent backend

    [db] is the query builder of [server/db.ts] over the node-postgres driver.
    The table definitions are not part of these sources.  A table is modelled
    as its rows in insertion order and the next value of its identifier
    sequence; the store keeps a value as it is handed over (column encodings
    and constraints are not modelled). *)
Class Schema := {
  (** [column_default table column]: what a column receives when an insert
      supplies no value for it. *)
  column_default : string -> string -> value
}.

Module Db.
Record Table (R : Type) := mkTable { rows : list R; serial : Z }.
Arguments mkTable {R}.
Arguments rows {R}.
Arguments serial {R}.

Definition empty {R} : Table R := mkTable [] 1.

(** The time by which [orderBy] on a timestamp column compares; a row
    without a time sorts last, as nulls do in ascending order. *)
Definition time_key (v : value) : option Z :=
  match v with
  | VDate tv => tv
  | _ => None
  end.

Definition key_le (a b : option Z) : Prop :=
  match a, b with
  | Some x, Some y => x <= y
  | _, None => True
  | None, Some _ => False
  end.

Definition time_le (a b : value) : Prop := key_le (time_key a) (time_key b).

#[global] Instance key_le_dec a b : Decision (key_le a b).
Proof. destruct a, b; simpl; apply _. Defined.

#[global] Instance time_le_dec a b : Decision (time_le a b).
Proof. unfold time_le; apply _. Defined.

(** Rows compared by a timestamp column. *)
Definition by_time {R} (column : R -> value) (a b : R) : Prop :=
  time_le (column a) (column b).

#[global] Instance by_time_dec {R} (column : R -> value) a b :
  Decision (by_time column a b).
Proof. unfold by_time; apply _. Defined.

(** A property of the object given to [values()] or [set()]: the builder
    skips a property that is absent or holds [undefined]. *)
Definition supplied (o : option value) (otherwise : value) : value :=
  match o with
  | None | Some VUndefined => otherwise
  | Some v => v
  end.

Section Statements.
Context {R : Type}.

(** [db.select().from(table).orderBy(column)] *)
Definition select_orderBy (column : R -> value) (tb : Table R) : list R :=
  merge_sort (by_time column) (rows tb).

(** [db.insert(table).values(v).returning()]: one row, whose identifier
    the store assigns; [row] builds it from that identifier. *)
Definition insert_returning (row : Z -> R) (tb : Table R) : list R * Table R :=
  let r := row (serial tb) in
  ([r], mkTable (rows tb ++ [r]) (serial tb + 1)).

(** [db.update(table).set(v).where(eq(table.id, id)).returning()] *)
Definition update_returning (idcol : R -> Z) (set : R -> R) (id : Z)
    (tb : Table R) : list R * Table R :=
  let rows' := map (fun r => if idcol r =? id then set r else r) (rows tb) in
  (filter (fun r => idcol r = id) rows', mkTable rows' (serial tb)).

(** [db.delete(table).where(eq(table.id, id))], without [returning()]:
    the driver's result object. *)
Definition delete_where (idcol : R -> Z) (id : Z) (tb : Table R) : value * Table R :=
  let rows' := filter (fun r => idcol r <> id) (rows tb) in
  (VQueryResult (Z.of_nat (length (rows tb)) - Z.of_nat (length rows')),
   mkTable rows' (serial tb)).
End Statements.
End Db.

(** What an async method settles to: a value, or a thrown [Error] with its
    message. *)
Inductive result (A : Type) :=
  | Ok (a : A)
  | Throw (message : string).
Arguments Ok {A}.
Arguments Throw {A}.

(** [const [x] = rows]: the first row, [None] standing for [undefined]. *)
Definition first {A} (l : list A) : option A := head l.

(** [UpdateSalary] and [UpdateExpense]: an identifier and the properties to
    change. *)
Module UpdateSalary.
Record t := mk { id : Z; values : SalaryData.t }.
End UpdateSalary.

Module UpdateExpense.
Record t := mk { id : Z; values : ExpenseData.t }.
End UpdateExpense.

(** ** The persistent backend *)
Module PostgresStorage.
Record t := mk {
  salaries : Db.Table Salary.t;
  expenses : Db.Table Expense.t
}.

Definition new : t := mk Db.empty Db.empty.

(** Running a statement against one of the two tables. *)
Definition on_salaries {A} (stmt : Db.Table Salary.t -> A * Db.Table Salary.t) : M t A :=
  let* s := get in
  let (a, tb) := stmt (salaries s) in
  let* _ := put (mk tb (expenses s)) in
  ret a.
Definition on_expenses {A} (stmt : Db.Table Expense.t -> A * Db.Table Expense.t) : M t A :=
  let* s := get in
  let (a, tb) := stmt (expenses s) in
  let* _ := put (mk (salaries s) tb) in
  ret a.

Section Methods.
Context {rt : Runtime} {sc : Schema}.

Definition getSalaries : M t (list Salary.t) :=
  let* s := get in ret (Db.select_orderBy Salary.createdAt (salaries s)).

(** [{...insertSalary, amount: ..., createdAt: ...}] as a row *)
Definition salaryRow (insertSalary : SalaryData.t) (createdAt : value) (id : Z)
    : Salary.t :=
  Salary.mk id
    (VNumber (Number (prop (SalaryData.amount insertSalary))))
    (Db.supplied (SalaryData.month insertSalary) (column_default "salaries" "month"))
    (Db.supplied (SalaryData.year insertSalary) (column_default "salaries" "year"))
    (Db.supplied (SalaryData.notes insertSalary) (column_default "salaries" "notes"))
    (Db.supplied (SalaryData.date insertSalary) (column_default "salaries" "date"))
    createdAt.

Definition addSalary (insertSalary : SalaryData.t) : M t (option Salary.t) :=
  let* createdAt := Date_new in
  let* returned := on_salaries (Db.insert_returning (salaryRow insertSalary createdAt)) in
  ret (first returned).

(** [{...values, amount: Number(values.amount)}] applied to a row *)
Definition setSalary (values : SalaryData.t) (r : Salary.t) : Salary.t :=
  Salary.mk
    (Salary.id r)
    (VNumber (Number (prop (SalaryData.amount values))))
    (Db.supplied (SalaryData.month values) (Salary.month r))
    (Db.supplied (SalaryData.year values) (Salary.year r))
    (Db.supplied (SalaryData.notes values) (Salary.notes r))
    (Db.supplied (SalaryData.date values) (Salary.date r))
    (Salary.createdAt r).

Definition updateSalary (updateSalary : UpdateSalary.t) : M t (result Salary.t) :=
  let id := UpdateSalary.id updateSalary in
  let values := UpdateSalary.values updateSalary in
  let* returned := on_salaries (Db.update_returning Salary.id (setSalary values) id) in
  match first returned with
  | None => ret (Throw ("Salary with id " ++ pretty id ++ " not found"))
  | Some salary => ret (Ok salary)
  end.

Definition deleteSalary (id : Z) : M t bool :=
  let* deleteCount := on_salaries (Db.delete_where Salary.id id) in
  ret (greater_than deleteCount 0).

Definition getExpenses : M t (list Expense.t) :=
  let* s := get in ret (Db.select_orderBy Expense.createdAt (expenses s)).

(** [{...insertExpense, amount: ..., createdAt: ...}] as a row *)
Definition expenseRow (insertExpense : ExpenseData.t) (createdAt : value) (id : Z)
    : Expense.t :=
  Expense.mk id
    (VNumber (Number (prop (ExpenseData.amount insertExpense))))
    (Db.supplied (ExpenseData.category insertExpense) (column_default "expenses" "category"))
    (Db.supplied (ExpenseData.description insertExpense)
                 (column_default "expenses" "description"))
    (Db.supplied (ExpenseData.date insertExpense) (column_default "expenses" "date"))
    createdAt.

Definition addExpense (insertExpense : ExpenseData.t) : M t (option Expense.t) :=
  let* createdAt := Date_of_or_now (truthy (prop (ExpenseData.date insertExpense)))
                                   (prop (ExpenseData.date insertExpense)) in
  let* returned := on_expenses (Db.insert_returning (expenseRow insertExpense createdAt)) in
  ret (first returned).

(** [{...values, amount: ..., createdAt: values.date ? new Date(values.date)
    : undefined}] applied to a row *)
Definition setExpense (values : ExpenseData.t) (r : Expense.t) : Expense.t :=
  Expense.mk
    (Expense.id r)
    (VNumber (Number (prop (ExpenseData.amount values))))
    (Db.supplied (ExpenseData.category values) (Expense.category r))
    (Db.supplied (ExpenseData.description values) (Expense.description r))
    (Db.supplied (ExpenseData.date values) (Expense.date r))
    (Db.supplied
       (Some (if truthy (prop (ExpenseData.date values))
              then Date_of (prop (ExpenseData.date values))
              else VUndefined))
       (Expense.createdAt r)).

Definition updateExpense (updateExpense : UpdateExpense.t) : M t (result Expense.t) :=
  let id := UpdateExpense.id updateExpense in
  let values := UpdateExpense.values updateExpense in
  let* returned := on_expenses (Db.update_returning Expense.id (setExpense values) id) in
  match first returned with
  | None => ret (Throw ("Expense with id " ++ pretty id ++ " not found"))
  | Some expense => ret (Ok expense)
  end.

Definition deleteExpense (id : Z) : M t bool :=
  let* deleteCount := on_expenses (Db.delete_where Expense.id id) in
  ret (greater_than deleteCount 0).

Definition getIndianExpenses : M t (result (list Expense.t)) :=
  ret (Throw "Method not implemented.").

Definition createIndianExpense (expense : ExpenseData.t) : M t (result Expense.t) :=
  ret (Throw "Method not implemented.").

Definition deleteIndianExpense (id : Z) : M t (result bool) :=
  ret (Throw "Method not implemented.").
End Methods.
End PostgresStorage.

(** ** The records that survive a history of calls

    What the storage contract says a collection holds after some calls: the
    records that were added and not deleted, each as last updated, in the
    order in which they were added.  This is written from the contract, not
    from either backend, and the backends are compared with it. *)
Inductive effect (A : Type) :=
  | Added (record : A)
  | Replaced (id : Z) (record : A)
  | Removed (id : Z).
Arguments Added {A}.
Arguments Replaced {A}.
Arguments Removed {A}.

(** [l] without its first record with identifier [id]. *)
Fixpoint remove_first {A} (idcol : A -> Z) (id : Z) (l : list A) : list A :=
  match l with
  | [] => []
  | x :: rest => if idcol x =? id then rest else x :: remove_first idcol id rest
  end.

(** [l] with [new] in place of its first record with identifier [id]. *)
Fixpoint replace_first {A} (idcol : A -> Z) (id : Z) (new : A) (l : list A) : list A :=
  match l with
  | [] => []
  | x :: rest =>
      if idcol x =? id then new :: rest else x :: replace_first idcol id new rest
  end.

Definition apply_effect {A} (idcol : A -> Z) (l : list A) (e : effect A) : list A :=
  match e with
  | Added a => l ++ [a]
  | Replaced id a => replace_first idcol id a l
  | Removed id => remove_first idcol id l
  end.

(** The records that survive the effects [es], starting from nothing. *)
Definition survivors {A} (idcol : A -> Z) (es : list (effect A)) : list A :=
  fold_left (apply_effect idcol) es [].

(** ** Sequences of calls on the ephemeral backend *)
Module Session.
Inductive call :=
  | GetSalaries
  | CreateSalary (data : SalaryData.t)
  | AddSalary (data : SalaryData.t)
  | UpdateSalary (id : Z) (data : SalaryData.t)
  | DeleteSalary (id : Z)
  | GetExpenses
  | CreateExpense (data : ExpenseData.t)
  | AddExpense (data : ExpenseData.t)
  | UpdateExpense (id : Z) (data : ExpenseData.t)
  | DeleteExpense (id : Z)
  | GetIndianExpenses
  | CreateIndianExpense (data : ExpenseData.t)
  | DeleteIndianExpense (id : Z).

(** What a call resolves to. *)
Inductive reply :=
  | Salaries (l : list Salary.t)
  | AddedSalary (s : Salary.t)
  | UpdatedSalary (s : option Salary.t)
  | Expenses (l : list Expense.t)
  | AddedExpense (e : Expense.t)
  | UpdatedExpense (e : option Expense.t)
  | IndianExpenses (l : list Expense.t)
  | AddedIndianExpense (e : Expense.t)
  | Deleted (b : bool).

Section Run.
Context {rt : Runtime}.

Definition exec (c : call) : M InMemoryStorage.t reply :=
  match c with
  | GetSalaries => let* l := InMemoryStorage.getSalaries in ret (Salaries l)
  | CreateSalary d => let* s := InMemoryStorage.createSalary d in ret (AddedSalary s)
  | AddSalary d => let* s := InMemoryStorage.addSalary d in ret (AddedSalary s)
  | UpdateSalary i d => let* s := InMemoryStorage.updateSalary i d in ret (UpdatedSalary s)
  | DeleteSalary i => let* b := InMemoryStorage.deleteSalary i in ret (Deleted b)
  | GetExpenses => let* l := InMemoryStorage.getExpenses in ret (Expenses l)
  | CreateExpense d => let* e := InMemoryStorage.createExpense d in ret (AddedExpense e)
  | AddExpense d => let* e := InMemoryStorage.addExpense d in ret (AddedExpense e)
  | UpdateExpense i d => let* e := InMemoryStorage.updateExpense i d in ret (UpdatedExpense e)
  | DeleteExpense i => let* b := InMemoryStorage.deleteExpense i in ret (Deleted b)
  | GetIndianExpenses =>
      let* l := InMemoryStorage.getIndianExpenses in ret (IndianExpenses l)
  | CreateIndianExpense d =>
      let* e := InMemoryStorage.createIndianExpense d in ret (AddedIndianExpense e)
  | DeleteIndianExpense i =>
      let* b := InMemoryStorage.deleteIndianExpense i in ret (Deleted b)
  end.

(** The calls run one after the other, each to completion. *)
Fixpoint run (cs : list call) : M InMemoryStorage.t (list reply) :=
  match cs with
  | [] => ret []
  | c :: rest =>
      let* r := exec c in
      let* rs := run rest in
      ret (r :: rs)
  end.
End Run.

(** A fresh backend in a fresh process. *)
Definition start : World InMemoryStorage.t := mkWorld InMemoryStorage.new 0.

(** The record categories. *)
Inductive category := SalaryC | ExpenseC | IndianExpenseC.

(** The identifier an addition to category [k] returned. *)
Definition added_id (k : category) (r : reply) : option Z :=
  match k, r with
  | SalaryC, AddedSalary s => Some (Salary.id s)
  | ExpenseC, AddedExpense e => Some (Expense.id e)
  | IndianExpenseC, AddedIndianExpense e => Some (Expense.id e)
  | _, _ => None
  end.

(** The identifiers the additions to category [k] returned, in call order. *)
Definition added_ids (k : category) (rs : list reply) : list Z :=
  omap (added_id k) rs.

Definition adds_to (k : category) (c : call) : bool :=
  match k, c with
  | SalaryC, (CreateSalary _ | AddSalary _) => true
  | ExpenseC, (CreateExpense _ | AddExpense _) => true
  | IndianExpenseC, CreateIndianExpense _ => true
  | _, _ => false
  end.

(** The counter behind the identifiers of category [k]. *)
Definition counter (k : category) (s : InMemoryStorage.t) : Z :=
  match k with
  | SalaryC => InMemoryStorage.salaryId s
  | ExpenseC => InMemoryStorage.expenseId s
  | IndianExpenseC => InMemoryStorage.indianExpenseId s
  end.

(** How many of the calls add to category [k]. *)
Definition additions (k : category) (cs : list call) : nat :=
  length (List.filter (adds_to k) cs).
(** The category a call works on. *)
Definition category_of (c : call) : category :=
  match c with
  | GetSalaries | CreateSalary _ | AddSalary _ | UpdateSalary _ _ | DeleteSalary _ => SalaryC
  | GetExpenses | CreateExpense _ | AddExpense _ | UpdateExpense _ _ | DeleteExpense _ =>
      ExpenseC
  | GetIndianExpenses | CreateIndianExpense _ | DeleteIndianExpense _ => IndianExpenseC
  end.

(** Category [k] is the same in [s'] as in [s]: same records, same counter. *)
Definition untouched (k : category) (s s' : InMemoryStorage.t) : Prop :=
  match k with
  | SalaryC =>
      InMemoryStorage.salaries s' = InMemoryStorage.salaries s /\
      InMemoryStorage.salaryId s' = InMemoryStorage.salaryId s
  | ExpenseC =>
      InMemoryStorage.expenses s' = InMemoryStorage.expenses s /\
      InMemoryStorage.expenseId s' = InMemoryStorage.expenseId s
  | IndianExpenseC =>
      InMemoryStorage.indianExpenses s' = InMemoryStorage.indianExpenses s /\
      InMemoryStorage.indianExpenseId s' = InMemoryStorage.indianExpenseId s
  end.
(** What a call and its reply mean for each collection: an addition adds the
    record it returned, a successful update puts the record it returned in
    place of the one with the identifier, a delete removes the record with
    the identifier. *)
Definition salary_effect (c : call) (r : reply) : option (effect Salary.t) :=
  match c, r with
  | (CreateSalary _ | AddSalary _), AddedSalary s => Some (Added s)
  | UpdateSalary id _, UpdatedSalary (Some s) => Some (Replaced id s)
  | DeleteSalary id, _ => Some (Removed id)
  | _, _ => None
  end.

Definition expense_effect (c : call) (r : reply) : option (effect Expense.t) :=
  match c, r with
  | (CreateExpense _ | AddExpense _), AddedExpense e => Some (Added e)
  | UpdateExpense id _, UpdatedExpense (Some e) => Some (Replaced id e)
  | DeleteExpense id, _ => Some (Removed id)
  | _, _ => None
  end.

Definition indianExpense_effect (c : call) (r : reply) : option (effect Expense.t) :=
  match c, r with
  | CreateIndianExpense _, AddedIndianExpense e => Some (Added e)
  | DeleteIndianExpense id, _ => Some (Removed id)
  | _, _ => None
  end.

(** The records of each category that survive the calls [cs], answered by
    [rs]. *)
Definition surviving_salaries (cs : list call) (rs : list reply) : list Salary.t :=
  survivors Salary.id (omap (fun h => salary_effect h.1 h.2) (zip cs rs)).
Definition surviving_expenses (cs : list call) (rs : list reply) : list Expense.t :=
  survivors Expense.id (omap (fun h => expense_effect h.1 h.2) (zip cs rs)).
Definition surviving_indianExpenses (cs : list call) (rs : list reply) : list Expense.t :=
  survivors Expense.id (omap (fun h => indianExpense_effect h.1 h.2) (zip cs rs)).
End Session.

(** ** Sequences of calls on the persistent backend *)
Module Requests.
Inductive call :=
  | GetSalaries
  | AddSalary (insertSalary : SalaryData.t)
  | UpdateSalary (updateSalary : UpdateSalary.t)
  | DeleteSalary (id : Z)
  | GetExpenses
  | AddExpense (insertExpense : ExpenseData.t)
  | UpdateExpense (updateExpense : UpdateExpense.t)
  | DeleteExpense (id : Z)
  | GetIndianExpenses
  | CreateIndianExpense (expense : ExpenseData.t)
  | DeleteIndianExpense (id : Z).

(** What a call settles to. *)
Inductive reply :=
  | Salaries (l : list Salary.t)
  | AddedSalary (s : option Salary.t)
  | UpdatedSalary (s : result Salary.t)
  | Expenses (l : list Expense.t)
  | AddedExpense (e : option Expense.t)
  | UpdatedExpense (e : result Expense.t)
  | Deleted (b : bool)
  | IndianExpenses (l : result (list Expense.t))
  | AddedIndianExpense (e : result Expense.t)
  | DeletedIndianExpense (b : result bool).

Section Run.
Context {rt : Runtime} {sc : Schema}.

Definition exec (c : call) : M PostgresStorage.t reply :=
  match c with
  | GetSalaries => let* l := PostgresStorage.getSalaries in ret (Salaries l)
  | AddSalary d => let* s := PostgresStorage.addSalary d in ret (AddedSalary s)
  | UpdateSalary u => let* s := PostgresStorage.updateSalary u in ret (UpdatedSalary s)
  | DeleteSalary i => let* b := PostgresStorage.deleteSalary i in ret (Deleted b)
  | GetExpenses => let* l := PostgresStorage.getExpenses in ret (Expenses l)
  | AddExpense d => let* e := PostgresStorage.addExpense d in ret (AddedExpense e)
  | UpdateExpense u => let* e := PostgresStorage.updateExpense u in ret (UpdatedExpense e)
  | DeleteExpense i => let* b := PostgresStorage.deleteExpense i in ret (Deleted b)
  | GetIndianExpenses =>
      let* l := PostgresStorage.getIndianExpenses in ret (IndianExpenses l)
  | CreateIndianExpense d =>
      let* e := PostgresStorage.createIndianExpense d in ret (AddedIndianExpense e)
  | DeleteIndianExpense i =>
      let* b := PostgresStorage.deleteIndianExpense i in ret (DeletedIndianExpense b)
  end.

Fixpoint run (cs : list call) : M PostgresStorage.t (list reply) :=
  match cs with
  | [] => ret []
  | c :: rest =>
      let* r := exec c in
      let* rs := run rest in
      ret (r :: rs)
  end.
End Run.

(** A backend on empty tables, in a fresh process. *)
Definition start : World PostgresStorage.t := mkWorld PostgresStorage.new 0.

Definition salary_effect (c : call) (r : reply) : option (effect Salary.t) :=
  match c, r with
  | AddSalary _, AddedSalary (Some s) => Some (Added s)
  | UpdateSalary u, UpdatedSalary (Ok s) => Some (Replaced (UpdateSalary.id u) s)
  | DeleteSalary id, _ => Some (Removed id)
  | _, _ => None
  end.

Definition expense_effect (c : call) (r : reply) : option (effect Expense.t) :=
  match c, r with
  | AddExpense _, AddedExpense (Some e) => Some (Added e)
  | UpdateExpense u, UpdatedExpense (Ok e) => Some (Replaced (UpdateExpense.id u) e)
  | DeleteExpense id, _ => Some (Removed id)
  | _, _ => None
  end.

Definition surviving_salaries (cs : list call) (rs : list reply) : list Salary.t :=
  survivors Salary.id (omap (fun h => salary_effect h.1 h.2) (zip cs rs)).
Definition surviving_expenses (cs : list call) (rs : list reply) : list Expense.t :=
  survivors Expense.id (omap (fun h => expense_effect h.1 h.2) (zip cs rs)).
End Requests.

(** [from_to a n] is [a; a+1; ...], [n] numbers. *)
Fixpoint from_to (a : Z) (n : nat) : list Z :=
  match n with
  | O => []
  | Datatypes.S n' => a :: from_to (a + 1) n'
  end.

(** ** Running the migrations ([server/db.ts])

    [runMigrations] talks to the connection pool, the file system and the
    console.  What these answer is the host's business; what the function
    does to them, in order, is recorded as a trace. *)
Module Migrations.
Inductive event :=
  | ConsoleLog (message : string)
  | ConsoleError (arguments : list string)
  | Connect
  | Query (sql : string)
  | Release.

(** The host: whether [pool.connect()] resolves, whether the migration file
    exists and what reading it gives, and whether the [n]-th statement sent
    on the client resolves.  A rejection or an exception is represented by
    the message of its error. *)
Class Host := {
  migrationPath : string;
  connect : result unit;
  existsSync : string -> bool;
  readFileSync : string -> result string;
  query : nat -> string -> result unit
}.

(** The trace so far and whether the local variable [client] is set. *)
Record state := mkState { trace : list event; client : bool }.

(** A computation that may throw. *)
Definition T (A : Type) : Type := state -> result A * state.

Definition pure {A} (a : A) : T A := fun s => (Ok a, s).

Definition and_then {A B} (m : T A) (k : A -> T B) : T B :=
  fun s => match m s with
           | (Ok a, s') => k a s'
           | (Throw e, s') => (Throw e, s')
           end.

(** [try { m } catch (error) { handler error }] *)
Definition try_catch {A} (m : T A) (handler : string -> T A) : T A :=
  fun s => match m s with
           | (Ok a, s') => (Ok a, s')
           | (Throw e, s') => handler e s'
           end.

(** [try { m } finally { cleanup }]: the cleanup runs either way, and the
    outcome is that of [m] unless the cleanup throws. *)
Definition finally {A} (m : T A) (cleanup : T unit) : T A :=
  fun s => match m s with
           | (r, s') => match cleanup s' with
                        | (Ok _, s'') => (r, s'')
                        | (Throw e, s'') => (Throw e, s'')
                        end
           end.

Definition emit (e : event) : T unit :=
  fun s => (Ok tt, mkState (trace s ++ [e]) (client s)).

(** The statements sent so far. *)
Definition statements (tr : list event) : list string :=
  omap (fun e => match e with Query sql => Some sql | _ => None end) tr.

(** How many times the client was released. *)
Definition releases (tr : list event) : nat :=
  length (List.filter (fun e => match e with Release => true | _ => false end) tr).

Section Run.
Context {host : Host}.

(** [client = await pool.connect()] *)
Definition pool_connect : T unit :=
  fun s => match connect with
           | Ok _ => (Ok tt, mkState (trace s ++ [Connect]) true)
           | Throw e => (Throw e, s)
           end.

(** [await client.query(sql)] *)
Definition client_query (sql : string) : T unit :=
  fun s => (query (length (statements (trace s))) sql,
            mkState (trace s ++ [Query sql]) (client s)).

(** [if (client) { m }] *)
Definition if_client (m : T unit) : T unit :=
  fun s => if client s then m s else (Ok tt, s).

(** The early [return] of the [try] block is the [then] branch below: the
    rest of the block is skipped and the [finally] clause still runs. *)
Definition runMigrations : T unit :=
  and_then (emit (ConsoleLog "Running database migrations...")) (fun _ =>
  finally
    (try_catch
       (and_then pool_connect (fun _ =>
        and_then (emit (ConsoleLog "Connected to database successfully")) (fun _ =>
        if negb (existsSync migrationPath)
        then emit (ConsoleLog "No migrations found, skipping...")
        else
          and_then (fun s => (readFileSync migrationPath, s)) (fun migrationSQL =>
          and_then (client_query "BEGIN") (fun _ =>
          and_then (client_query migrationSQL) (fun _ =>
          and_then (client_query "COMMIT") (fun _ =>
          emit (ConsoleLog "Database migrations completed successfully"))))))))
       (fun error =>
        and_then (emit (ConsoleError ["Database error:"; error])) (fun _ =>
        and_then (if_client
                    (try_catch (client_query "ROLLBACK")
                               (fun e => emit (ConsoleError [e])))) (fun _ =>
        emit (ConsoleLog "Continuing with application startup...")))))
    (if_client (emit Release))).
End Run.

(** Before the call: nothing has happened and [client] is declared but not
    set. *)
Definition initial : state := mkState [] false.
End Migrations.

(** ** A runtime to run examples on

    Strings of decimal digits convert to the number they spell and every other
    string to NaN; only the date [2024-01-15] parses; a year lasts 365.2425
    days; the clock starts at 1700000000000 and advances by a millisecond at
    each reading. *)
Module Sample.
Definition digit (c : Ascii.ascii) : option Z :=
  let n := Z.of_N (Ascii.N_of_ascii c) in
  if (48 <=? n) && (n <=? 57) then Some (n - 48) else None.

Fixpoint digits (acc : Z) (s : string) : option Z :=
  match s with
  | EmptyString => Some acc
  | String c rest =>
      match digit c with
      | Some d => digits (10 * acc + d) rest
      | None => None
      end
  end.

Definition to_number (s : string) : number :=
  match s with
  | EmptyString => Fin 0
  | _ => match digits 0 s with
         | Some z => Fin (inject_Z z)
         | None => NaN
         end
  end.

Definition parse (s : string) : option Z :=
  if String.eqb s "2024-01-15" then Some 1705276800000 else None.

#[export] Instance runtime : Runtime := {|
  StringToNumber := to_number;
  Date_parse := parse;
  YearFromTime := fun t => 1970 + t / 31556952000;
  Date_now := fun k => 1700000000000 + Z.of_nat k
|}.

#[export] Instance schema : Schema := {| column_default := fun _ _ => VNull |}.

(** A store of each backend holding one salary and one expense. *)
Definition salary1 : Salary.t :=
  Salary.mk 1 (VInt 1000) (VString "Jan") (VInt 2024) (VString "")
    (VDate (Some 1704067200000)) (VDate (Some 1704067200000)).
Definition expense1 : Expense.t :=
  Expense.mk 1 (VInt 40) (VString "food") (VString "lunch")
    (VDate (Some 1705276800000)) (VDate (Some 1705312345678)).
Definition memory : World InMemoryStorage.t :=
  mkWorld (InMemoryStorage.mk [salary1] [expense1] [] 2 2 1) 6.
Definition database : World PostgresStorage.t :=
  mkWorld (PostgresStorage.mk (Db.mkTable [salary1] 2) (Db.mkTable [expense1] 2)) 0.
(** A host on which everything succeeds, and one whose migration fails. *)
Definition host : Migrations.Host := {|
  Migrations.migrationPath := "/app/migrations/0000_initial.sql";
  Migrations.connect := Ok tt;
  Migrations.existsSync := fun _ => true;
  Migrations.readFileSync := fun _ => Ok "CREATE TABLE salaries ();";
  Migrations.query := fun _ _ => Ok tt
|}.
Definition failing_host : Migrations.Host := {|
  Migrations.migrationPath := "/app/migrations/0000_initial.sql";
  Migrations.connect := Ok tt;
  Migrations.existsSync := fun _ => true;
  Migrations.readFileSync := fun _ => Ok "CREATE TABLE salaries ();";
  Migrations.query := fun n _ => match n with 1%nat => Throw "syntax error" | _ => Ok tt end
|}.
(** Stores holding two salaries and two expenses. *)
Definition salary2 : Salary.t :=
  Salary.mk 2 (VInt 1200) (VString "Feb") (VInt 2024) (VString "raise")
    (VDate (Some 1706745600000)) (VDate (Some 1706745600000)).
Definition expense2 : Expense.t :=
  Expense.mk 2 (VInt 15) (VString "travel") (VString "bus")
    (VDate (Some 1705363200000)) (VDate (Some 1705399999999)).
Definition memory2 : World InMemoryStorage.t :=
  mkWorld (InMemoryStorage.mk [salary1; salary2] [expense1; expense2] [] 3 3 1) 12.
Definition database2 : World PostgresStorage.t :=
  mkWorld (PostgresStorage.mk (Db.mkTable [salary1; salary2] 3)
             (Db.mkTable [expense1; expense2] 3)) 0.

(** A runtime whose clock was set back by some seconds after its first
    reading. *)
Definition stepped_back : Runtime := {|
  StringToNumber := to_number;
  Date_parse := parse;
  YearFromTime := fun t => 1970 + t / 31556952000;
  Date_now := fun k => match k with
                       | O => 1700000005000
                       | _ => 1700000000000 + Z.of_nat k
                       end
|}.
End Sample.

(** ** Vocabulary of the properties *)

(** [r], at index [i], is the first element of [l] whose identifier is [id]. *)
Definition first_with_id {A} (idcol : A -> Z) (id : Z) (l : list A) (i : nat) (r : A)
    : Prop :=
  l !! i = Some r /\ idcol r = id /\ Forall (fun x => idcol x <> id) (take i l).

(** Creation timestamps [stamps] are readings of the clock taken before its
    [n]-th reading, in ascending order. *)
Definition chronological {rt : Runtime} (n : nat) (stamps : list value) : Prop :=
  StronglySorted Db.time_le stamps /\
  Forall (fun v => exists k, (k < n)%nat /\ v = VDate (Some (Date_now k))) stamps.

(** The three collections of the ephemeral backend are in the order of their
    creation timestamps, which are clock readings of the past. *)
Definition in_creation_order {rt : Runtime} (w : World InMemoryStorage.t) : Prop :=
  chronological (ticks w) (Salary.createdAt <$> InMemoryStorage.salaries (heap w)) /\
  chronological (ticks w) (Expense.createdAt <$> InMemoryStorage.expenses (heap w)) /\
  chronological (ticks w) (Expense.createdAt <$> InMemoryStorage.indianExpenses (heap w)).

(** Identifiers [ids], in stored order, are increasing and lie between 1 and
    the counter [next] that will give the next one. *)
Definition increasing_below (next : Z) (ids : list Z) : Prop :=
  1 <= next /\ StronglySorted Z.lt ids /\ Forall (fun x => 1 <= x < next) ids.

(** What the ephemeral backend keeps for a stored salary and a stored
    expense: a numeric amount and [Date] objects for the two dates. *)
Definition salary_typed (r : Salary.t) : Prop :=
  is_number (Salary.amount r) /\ is_date (Salary.date r) /\ is_date (Salary.createdAt r).
Definition expense_typed (r : Expense.t) : Prop :=
  is_number (Expense.amount r) /\ is_date (Expense.date r) /\ is_date (Expense.createdAt r).

(** The identifiers of the three collections, each against its counter. *)
Definition identifiers_in_order (s : InMemoryStorage.t) : Prop :=
  increasing_below (InMemoryStorage.salaryId s) (Salary.id <$> InMemoryStorage.salaries s) /\
  increasing_below (InMemoryStorage.expenseId s) (Expense.id <$> InMemoryStorage.expenses s) /\
  increasing_below (InMemoryStorage.indianExpenseId s)
                   (Expense.id <$> InMemoryStorage.indianExpenses s).

(** Every stored record has a numeric amount and [Date] dates. *)
Definition records_typed (s : InMemoryStorage.t) : Prop :=
  Forall salary_typed (InMemoryStorage.salaries s) /\
  Forall expense_typed (InMemoryStorage.expenses s) /\
  Forall expense_typed (InMemoryStorage.indianExpenses s).

(** What a delete makes of a collection [l]: it answers [false] and keeps [l]
    when no record has the identifier, and otherwise answers [true] and
    removes the first record that has it. *)
Definition delete_outcome {A} (idcol : A -> Z) (id : Z) (l : list A)
    (answer : bool) (l' : list A) : Prop :=
  (answer = false /\ l' = l /\ Forall (fun x => idcol x <> id) l) \/
  (answer = true /\ exists i r, first_with_id idcol id l i r /\ l' = delete i l).

(** The identifiers of the two tables, each against its sequence. *)
Definition tables_in_order (s : PostgresStorage.t) : Prop :=
  increasing_below (Db.serial (PostgresStorage.salaries s))
                   (Salary.id <$> Db.rows (PostgresStorage.salaries s)) /\
  increasing_below (Db.serial (PostgresStorage.expenses s))
                   (Expense.id <$> Db.rows (PostgresStorage.expenses s)).

(** What an effect, if any, makes of a collection. *)
Definition after_effect {A} (idcol : A -> Z) (l : list A) (e : option (effect A))
    : list A :=
  match e with
  | Some e => apply_effect idcol l e
  | None => l
  end.

(** A backend state reached from a fresh backend by some calls. *)
Definition reachable {rt : Runtime} (w : World InMemoryStorage.t) : Prop :=
  exists cs, w = (Session.run cs Session.start).2.

(** A field the update does not mention keeps its value. *)
Definition kept (field : option value) (old new : value) : Prop :=
  field = None -> new = old.

(** The fields of a salary that an update with [data] leaves alone, the amount
    apart. *)
Definition salary_frame (data : SalaryData.t) (r r' : Salary.t) : Prop :=
  Salary.id r' = Salary.id r /\
  Salary.createdAt r' = Salary.createdAt r /\
  kept (SalaryData.month data) (Salary.month r) (Salary.month r') /\
  kept (SalaryData.year data) (Salary.year r) (Salary.year r') /\
  kept (SalaryData.notes data) (Salary.notes r) (Salary.notes r') /\
  kept (SalaryData.date data) (Salary.date r) (Salary.date r').

(** The same for an expense, the amount and the creation timestamp apart. *)
Definition expense_frame (data : ExpenseData.t) (r r' : Expense.t) : Prop :=
  Expense.id r' = Expense.id r /\
  kept (ExpenseData.category data) (Expense.category r) (Expense.category r') /\
  kept (ExpenseData.description data) (Expense.description r) (Expense.description r') /\
  kept (ExpenseData.date data) (Expense.date r) (Expense.date r').

(** * Properties *)

(** ** Arrays *)

Lemma findIndex_range {A} (p : A -> bool) (arr : list A) :
  findIndex p arr = -1 \/ 0 <= findIndex p arr < Z.of_nat (length arr).
Proof.
  induction arr as [|x rest IH]; simpl; [now left|].
  destruct (p x); [right; lia|].
  destruct (findIndex p rest =? -1) eqn:E; [now left|].
  apply Z.eqb_neq in E. right. lia.
Qed.

(** No element satisfies the predicate exactly when the search answers -1. *)
Lemma findIndex_none {A} (p : A -> bool) (arr : list A) :
  findIndex p arr = -1 <-> Forall (fun x => p x = false) arr.
Proof.
  induction arr as [|x rest IH]; simpl.
  - split; [constructor|reflexivity].
  - destruct (p x) eqn:Px.
    + split; [discriminate|]. intros F. inversion F; congruence.
    + destruct (findIndex p rest =? -1) eqn:E.
      * apply Z.eqb_eq in E. split; [|reflexivity].
        intros _. constructor; [assumption|now apply IH].
      * apply Z.eqb_neq in E. pose proof (findIndex_range p rest).
        split; [lia|]. intros F. inversion F; subst. tauto.
Qed.

(** Otherwise the index is that of the first element satisfying it. *)
Lemma findIndex_lookup {A} (p : A -> bool) (arr : list A) :
  findIndex p arr <> -1 ->
  exists x, arr !! Z.to_nat (findIndex p arr) = Some x /\ p x = true /\
            Forall (fun y => p y = false) (take (Z.to_nat (findIndex p arr)) arr).
Proof.
  induction arr as [|x rest IH]; simpl; [congruence|].
  destruct (p x) eqn:Px.
  - intros _. exists x. simpl. repeat split; auto.
  - destruct (findIndex p rest =? -1) eqn:E; [congruence|].
    apply Z.eqb_neq in E. intros _.
    destruct (IH E) as (y & Hy & Py & Hbefore).
    pose proof (findIndex_range p rest) as [?|R]; [congruence|].
    replace (Z.to_nat (findIndex p rest + 1)) with (Datatypes.S (Z.to_nat (findIndex p rest))) by lia.
    exists y. simpl. repeat split; auto.
Qed.

(** ** C9: the regional-expense stubs of the persistent backend *)

(** C9. On the persistent backend, listing, creating and deleting regional
    expenses each fail with the error "Method not implemented.", whatever the
    argument and whatever the store holds, and leave the store as it was. *)
Theorem regional_expenses_not_implemented {rt : Runtime} {sc : Schema}
    (w : World PostgresStorage.t) (expense : ExpenseData.t) (id : Z) :
  PostgresStorage.getIndianExpenses w = (Throw "Method not implemented.", w) /\
  PostgresStorage.createIndianExpense expense w = (Throw "Method not implemented.", w) /\
  PostgresStorage.deleteIndianExpense id w = (Throw "Method not implemented.", w).
Proof. repeat split. Qed.

(** ** C10: the duplicated entry points of the ephemeral backend *)

(** C10. On the ephemeral backend [createSalary] and [addSalary] return the
    same record and leave the same state, for every argument and every prior
    state, and [addExpense] returns what [createExpense] returns (and leaves
    the state [createExpense] leaves). *)
Theorem create_and_add_agree {rt : Runtime} (w : World InMemoryStorage.t)
    (salary : SalaryData.t) (expense : ExpenseData.t) :
  InMemoryStorage.createSalary salary w = InMemoryStorage.addSalary salary w /\
  InMemoryStorage.addExpense expense w = InMemoryStorage.createExpense expense w.
Proof. split; reflexivity. Qed.

(** ** C3: updating an identifier that is not stored *)

Lemma map_unmatched {A} (idcol : A -> Z) (set : A -> A) (id : Z) (l : list A) :
  Forall (fun r => idcol r <> id) l ->
  map (fun r => if idcol r =? id then set r else r) l = l.
Proof.
  induction 1 as [|r l Hr _ IH]; simpl; [reflexivity|].
  apply Z.eqb_neq in Hr. now rewrite Hr, IH.
Qed.

Lemma filter_unmatched {A} (idcol : A -> Z) (id : Z) (l : list A) :
  Forall (fun r => idcol r <> id) l ->
  filter (fun r => idcol r = id) l = [].
Proof.
  induction 1 as [|r l Hr _ IH]; [reflexivity|].
  rewrite filter_cons. destruct (decide (idcol r = id)); [contradiction|assumption].
Qed.

Lemma findIndex_unmatched {A} (idcol : A -> Z) (id : Z) (l : list A) :
  Forall (fun r => idcol r <> id) l ->
  findIndex (fun x => idcol x =? id) l = -1.
Proof.
  intros F. apply findIndex_none.
  eapply Forall_impl; [exact F|]. intros r Hr. now apply Z.eqb_neq.
Qed.

(** C3. When no stored record has the identifier, an update on the persistent
    backend throws an error whose message names the record kind and the
    identifier, and an update on the ephemeral backend returns null without
    throwing; either way the store is left as it was. *)
Theorem update_of_missing_id {rt : Runtime} {sc : Schema} (id : Z)
    (salary : SalaryData.t) (expense : ExpenseData.t)
    (pw : World PostgresStorage.t) (mw : World InMemoryStorage.t) :
  (Forall (fun r => Salary.id r <> id) (Db.rows (PostgresStorage.salaries (heap pw))) ->
   PostgresStorage.updateSalary (UpdateSalary.mk id salary) pw
   = (Throw ("Salary with id " ++ pretty id ++ " not found"), pw)) /\
  (Forall (fun r => Expense.id r <> id) (Db.rows (PostgresStorage.expenses (heap pw))) ->
   PostgresStorage.updateExpense (UpdateExpense.mk id expense) pw
   = (Throw ("Expense with id " ++ pretty id ++ " not found"), pw)) /\
  (Forall (fun r => Salary.id r <> id) (InMemoryStorage.salaries (heap mw)) ->
   InMemoryStorage.updateSalary id salary mw = (None, mw)) /\
  (Forall (fun r => Expense.id r <> id) (InMemoryStorage.expenses (heap mw)) ->
   InMemoryStorage.updateExpense id expense mw = (None, mw)).
Proof.
  destruct pw as [[ps pe] pt], mw as [ms mt]. simpl.
  repeat split; intros F.
  - unfold PostgresStorage.updateSalary, PostgresStorage.on_salaries, bind, get, put, ret.
    simpl. rewrite (map_unmatched _ _ _ _ F), (filter_unmatched _ _ _ F).
    now destruct ps.
  - unfold PostgresStorage.updateExpense, PostgresStorage.on_expenses, bind, get, put, ret.
    simpl. rewrite (map_unmatched _ _ _ _ F), (filter_unmatched _ _ _ F).
    now destruct pe.
  - unfold InMemoryStorage.updateSalary, bind, get, ret. simpl.
    now rewrite (findIndex_unmatched _ _ _ F).
  - unfold InMemoryStorage.updateExpense, bind, get, ret. simpl.
    now rewrite (findIndex_unmatched _ _ _ F).
Qed.

Lemma update_of_missing_id_witness :
  PostgresStorage.updateSalary (rt := Sample.runtime)
    (UpdateSalary.mk 7 SalaryData.empty) Sample.database
  = (Throw "Salary with id 7 not found", Sample.database) /\
  PostgresStorage.updateExpense (rt := Sample.runtime)
    (UpdateExpense.mk 7 ExpenseData.empty) Sample.database
  = (Throw "Expense with id 7 not found", Sample.database) /\
  InMemoryStorage.updateSalary (rt := Sample.runtime) 7 SalaryData.empty Sample.memory
  = (None, Sample.memory) /\
  InMemoryStorage.updateExpense (rt := Sample.runtime) 7 ExpenseData.empty Sample.memory
  = (None, Sample.memory).
Proof.
  destruct (update_of_missing_id (rt := Sample.runtime) (sc := Sample.schema) 7
              SalaryData.empty ExpenseData.empty Sample.database Sample.memory)
    as (A & B & C & D).
  split; [|split; [|split]]; [apply A | apply B | apply C | apply D];
    (constructor; [simpl; lia | constructor]).
Defined.

(** ** C8: the creation timestamp under an expense update (persistent backend) *)

(** The rows of a table after an update statement, position by position. *)
Lemma update_returning_lookup {A} (idcol : A -> Z) (set : A -> A) (id : Z)
    (tb : Db.Table A) (i : nat) :
  Db.rows (Db.update_returning idcol set id tb).2 !! i
  = (fun r => if idcol r =? id then set r else r) <$> (Db.rows tb !! i).
Proof.
  unfold Db.update_returning. simpl.
  change (map ?f ?l) with (f <$> l). apply list_lookup_fmap.
Qed.

Lemma updateExpense_rows {rt : Runtime} {sc : Schema} (u : UpdateExpense.t)
    (w : World PostgresStorage.t) :
  PostgresStorage.expenses (heap (PostgresStorage.updateExpense u w).2)
  = (Db.update_returning Expense.id (PostgresStorage.setExpense (UpdateExpense.values u))
       (UpdateExpense.id u) (PostgresStorage.expenses (heap w))).2 /\
  PostgresStorage.salaries (heap (PostgresStorage.updateExpense u w).2)
  = PostgresStorage.salaries (heap w).
Proof.
  unfold PostgresStorage.updateExpense, PostgresStorage.on_expenses, bind, get, put, ret.
  simpl. now destruct (first _).
Qed.

Lemma updateSalary_rows {rt : Runtime} {sc : Schema} (u : UpdateSalary.t)
    (w : World PostgresStorage.t) :
  PostgresStorage.salaries (heap (PostgresStorage.updateSalary u w).2)
  = (Db.update_returning Salary.id (PostgresStorage.setSalary (UpdateSalary.values u))
       (UpdateSalary.id u) (PostgresStorage.salaries (heap w))).2 /\
  PostgresStorage.expenses (heap (PostgresStorage.updateSalary u w).2)
  = PostgresStorage.expenses (heap w).
Proof.
  unfold PostgresStorage.updateSalary, PostgresStorage.on_salaries, bind, get, put, ret.
  simpl. now destruct (first _).
Qed.

(** C8. An expense update on the persistent backend stores, as the creation
    timestamp of the record it updates, the date built from the effective
    date of the update when the update carries one, and leaves the stored
    creation timestamp as it was when the update carries none. *)
Theorem updateExpense_creation_timestamp {rt : Runtime} {sc : Schema}
    (u : UpdateExpense.t) (w : World PostgresStorage.t) (i : nat) (r : Expense.t) :
  Db.rows (PostgresStorage.expenses (heap w)) !! i = Some r ->
  Expense.id r = UpdateExpense.id u ->
  let date := prop (ExpenseData.date (UpdateExpense.values u)) in
  exists r',
    Db.rows (PostgresStorage.expenses (heap (PostgresStorage.updateExpense u w).2)) !! i
    = Some r' /\
    (truthy date = true -> Expense.createdAt r' = Date_of date) /\
    (truthy date = false -> Expense.createdAt r' = Expense.createdAt r) /\
    (ExpenseData.date (UpdateExpense.values u) = None ->
     Expense.createdAt r' = Expense.createdAt r).
Proof.
  intros Hi Hid date.
  destruct (updateExpense_rows u w) as [-> _].
  rewrite update_returning_lookup, Hi. simpl.
  apply Z.eqb_eq in Hid. rewrite Hid.
  eexists; split; [reflexivity|].
  unfold PostgresStorage.setExpense; simpl. fold date.
  repeat split.
  - intros ->. simpl. unfold Date_of. now destruct date as [| | | | |[]|].
  - now intros ->.
  - unfold date. now intros ->.
Qed.

Lemma updateExpense_creation_timestamp_witness :
  exists r',
    Db.rows (PostgresStorage.expenses (heap
      (PostgresStorage.updateExpense (rt := Sample.runtime)
         (UpdateExpense.mk 1 (ExpenseData.mk (Some (VInt 55)) None None
                                (Some (VString "2024-01-15"))))
         Sample.database).2)) !! 0%nat = Some r' /\
    Expense.createdAt r' = VDate (Some 1705276800000).
Proof.
  destruct (updateExpense_creation_timestamp (rt := Sample.runtime) (sc := Sample.schema)
              (UpdateExpense.mk 1 (ExpenseData.mk (Some (VInt 55)) None None
                                     (Some (VString "2024-01-15"))))
              Sample.database 0%nat Sample.expense1 eq_refl eq_refl)
    as (r' & Hr' & Hset & _).
  exists r'. split; [exact Hr' | now apply Hset].
Defined.

(** ** C4: the creation timestamp of a new record *)

(** C4 does not hold as stated.  An expense with an effective date, added to
    a fresh ephemeral backend: the creation timestamp is the time of the call,
    not the effective date. *)
Lemma ephemeral_expense_created_at_call_time :
  let data := ExpenseData.mk (Some (VString "40")) (Some (VString "food"))
                (Some (VString "lunch")) (Some (VDate (Some 1705276800000))) in
  let created := (InMemoryStorage.addExpense (rt := Sample.runtime) data Session.start).1 in
  truthy (prop (ExpenseData.date data)) = true /\
  Expense.createdAt created = VDate (Some 1700000000000) /\
  Expense.createdAt created <> Date_of (rt := Sample.runtime) (prop (ExpenseData.date data)).
Proof. simpl. repeat split. discriminate. Qed.

(** C4 (as the code has it).  On the persistent backend an added expense is
    stored and returned with, as creation timestamp, the date built from its
    effective date when it has one and the time of the call otherwise, and an
    added salary with the time of the call.  On the ephemeral backend every
    added record, expense or salary, gets the time at which the call reads the
    clock for it, whether or not an effective date is supplied. *)
Theorem creation_timestamp_of_added_record {rt : Runtime} {sc : Schema}
    (salary : SalaryData.t) (expense : ExpenseData.t)
    (pw : World PostgresStorage.t) (mw : World InMemoryStorage.t) :
  (exists r w',
     PostgresStorage.addExpense expense pw = (Some r, w') /\
     Db.rows (PostgresStorage.expenses (heap w'))
     = (Db.rows (PostgresStorage.expenses (heap pw)) ++ [r])%list /\
     Expense.createdAt r
     = if truthy (prop (ExpenseData.date expense))
       then Date_of (prop (ExpenseData.date expense))
       else call_time pw) /\
  (exists r w',
     PostgresStorage.addSalary salary pw = (Some r, w') /\
     Db.rows (PostgresStorage.salaries (heap w'))
     = (Db.rows (PostgresStorage.salaries (heap pw)) ++ [r])%list /\
     Salary.createdAt r = call_time pw) /\
  (exists r w',
     InMemoryStorage.addExpense expense mw = (r, w') /\
     InMemoryStorage.expenses (heap w') = (InMemoryStorage.expenses (heap mw) ++ [r])%list /\
     Expense.createdAt r = call_time mw) /\
  (exists r w' k,
     InMemoryStorage.addSalary salary mw = (r, w') /\
     InMemoryStorage.salaries (heap w') = (InMemoryStorage.salaries (heap mw) ++ [r])%list /\
     (ticks mw <= k < ticks w')%nat /\
     ticks w' = Datatypes.S k /\
     Salary.createdAt r = VDate (Some (Date_now k))).
Proof.
  split; [|split; [|split]].
  - unfold PostgresStorage.addExpense, PostgresStorage.on_expenses, Date_of_or_now,
      bind, get, put, ret, call_time.
    destruct (truthy (prop (ExpenseData.date expense))); simpl;
      eexists; eexists; (split; [reflexivity|]); simpl; split; reflexivity.
  - unfold PostgresStorage.addSalary, PostgresStorage.on_salaries, bind, get, put, ret, call_time.
    simpl. eexists; eexists; (split; [reflexivity|]); simpl; split; reflexivity.
  - unfold InMemoryStorage.addExpense, InMemoryStorage.createExpense,
      InMemoryStorage.next_expenseId, bind, get, put, ret, call_time.
    simpl. eexists; eexists; (split; [reflexivity|]); simpl; split; reflexivity.
  - unfold InMemoryStorage.addSalary, InMemoryStorage.next_salaryId, Date_of_or_now,
      or_elseM, bind, get, put, ret.
    destruct (truthy (prop (SalaryData.year salary)));
      destruct (truthy (prop (SalaryData.date salary))); simpl;
      eexists; eexists; eexists; (split; [reflexivity|]); simpl;
      (split; [reflexivity|]); (split; [|split; reflexivity]); lia.
Qed.

(** ** C5: defaults for omitted fields (ephemeral backend) *)

(** C5 does not hold as stated.  An expense with nothing filled in, added to
    a fresh ephemeral backend: the amount is NaN, not 0, the date is the
    invalid date, not the time of the call, and the category is [undefined]. *)
Lemma ephemeral_expense_without_defaults :
  let created :=
    (InMemoryStorage.createExpense (rt := Sample.runtime) ExpenseData.empty Session.start).1 in
  Expense.amount created = VNumber NaN /\
  Expense.amount created <> VInt 0 /\
  Expense.date created = VDate None /\
  Expense.date created <> call_time (rt := Sample.runtime) Session.start /\
  Expense.category created = VUndefined.
Proof. simpl. repeat split; discriminate. Qed.

(** C5 (as the code has it).  On the ephemeral backend, adding a salary fills
    each omitted field with a default: amount 0, month the empty string, year
    the current year, notes the empty string, date the current time.  Adding
    an expense or a regional expense fills only an omitted description, with
    the empty string; the amount is the numeric conversion of what was given,
    the date is the date built from what was given, and the category is stored
    as given. *)
Theorem defaults_of_created_record {rt : Runtime}
    (salary : SalaryData.t) (expense : ExpenseData.t) (w : World InMemoryStorage.t) :
  (forall r w', InMemoryStorage.createSalary salary w = (r, w') ->
     (prop (SalaryData.amount salary) = VUndefined -> Salary.amount r = VInt 0) /\
     (prop (SalaryData.month salary) = VUndefined -> Salary.month r = VString "") /\
     (prop (SalaryData.year salary) = VUndefined ->
      Salary.year r = VInt (YearFromTime (Date_now (ticks w)))) /\
     (prop (SalaryData.notes salary) = VUndefined -> Salary.notes r = VString "") /\
     (prop (SalaryData.date salary) = VUndefined ->
      exists k, (ticks w <= k < ticks w')%nat /\ Salary.date r = VDate (Some (Date_now k)))) /\
  (forall r w',
     InMemoryStorage.createExpense expense w = (r, w') \/
     InMemoryStorage.createIndianExpense expense w = (r, w') ->
     (prop (ExpenseData.description expense) = VUndefined ->
      Expense.description r = VString "") /\
     Expense.amount r = VNumber (Number (prop (ExpenseData.amount expense))) /\
     Expense.category r = prop (ExpenseData.category expense) /\
     Expense.date r = Date_of (prop (ExpenseData.date expense))).
Proof.
  split.
  - intros r w'.
    unfold InMemoryStorage.createSalary, InMemoryStorage.next_salaryId, Date_of_or_now,
      or_elseM, current_year, Date_new, bind, get, put, ret.
    destruct (truthy (prop (SalaryData.year salary))) eqn:Ty;
      destruct (truthy (prop (SalaryData.date salary))) eqn:Td; simpl;
      intros [= <- <-]; simpl;
      (split; [now intros -> |]); (split; [now intros -> |]);
      (split; [intros E; rewrite E in Ty; try discriminate; reflexivity |]);
      (split; [now intros -> |]);
      intros E; rewrite E in Td; try discriminate.
    + exists (ticks w). split; [lia | reflexivity].
    + exists (Datatypes.S (ticks w)). split; [lia | reflexivity].
  - intros r w'.
    unfold InMemoryStorage.createExpense, InMemoryStorage.createIndianExpense,
      InMemoryStorage.next_expenseId, InMemoryStorage.next_indianExpenseId,
      Date_new, bind, get, put, ret.
    simpl. intros [[= <- <-] | [= <- <-]]; simpl;
      (split; [now intros -> | repeat split]).
Qed.

Lemma defaults_of_created_record_witness :
  let created :=
    (InMemoryStorage.createSalary (rt := Sample.runtime) SalaryData.empty Session.start).1 in
  Salary.amount created = VInt 0 /\
  Salary.month created = VString "" /\
  Salary.year created = VInt 2023 /\
  Salary.notes created = VString "" /\
  (exists k, (0 <= k < 3)%nat /\ Salary.date created = VDate (Some (1700000000000 + Z.of_nat k))) /\
  Expense.description
    (InMemoryStorage.createExpense (rt := Sample.runtime) ExpenseData.empty Session.start).1
  = VString "".
Proof.
  destruct (defaults_of_created_record (rt := Sample.runtime)
              SalaryData.empty ExpenseData.empty Session.start) as [Hs He].
  destruct (Hs _ _ eq_refl) as (A & M & Y & N & D).
  destruct (He _ _ (or_introl eq_refl)) as (Ds & _).
  split; [apply A; reflexivity|].
  split; [apply M; reflexivity|].
  split; [apply Y; reflexivity|].
  split; [apply N; reflexivity|].
  split; [apply D; reflexivity|].
  apply Ds; reflexivity.
Defined.

(** ** C1: what an update leaves alone *)

Lemma findIndex_first {A} (idcol : A -> Z) (id : Z) (l : list A) (i : nat) (r : A) :
  first_with_id idcol id l i r ->
  findIndex (fun x => idcol x =? id) l = Z.of_nat i.
Proof.
  unfold first_with_id. revert i.
  induction l as [|x rest IH]; intros i (Hi & Hr & Hbefore); [discriminate|].
  destruct i as [|i]; simpl in *.
  - injection Hi as ->. apply Z.eqb_eq in Hr. now rewrite Hr.
  - inversion Hbefore as [|? ? Hx Hrest]; subst.
    apply Z.eqb_neq in Hx. rewrite Hx.
    rewrite (IH i) by auto.
    destruct (Z.of_nat i =? -1) eqn:E; [apply Z.eqb_eq in E|]; lia.
Qed.

(** The persistent backend hands the store a number for the amount, whatever
    the update holds. *)
Lemma setSalary_frame {rt : Runtime} (values : SalaryData.t) (r : Salary.t) :
  salary_frame values r (PostgresStorage.setSalary values r) /\
  is_number (Salary.amount (PostgresStorage.setSalary values r)).
Proof.
  unfold salary_frame, kept. simpl.
  repeat split; try (now intros ->). now eexists.
Qed.

Lemma setExpense_frame {rt : Runtime} (values : ExpenseData.t) (r : Expense.t) :
  expense_frame values r (PostgresStorage.setExpense values r) /\
  kept (ExpenseData.date values) (Expense.createdAt r)
       (Expense.createdAt (PostgresStorage.setExpense values r)) /\
  is_number (Expense.amount (PostgresStorage.setExpense values r)).
Proof.
  unfold expense_frame, kept. simpl.
  repeat split; try (now intros ->). now eexists.
Qed.

Lemma mergeSalary_frame {rt : Runtime} (data : SalaryData.t) (r : Salary.t) :
  let r' := InMemoryStorage.mergeSalary r data in
  salary_frame data r r' /\
  kept (SalaryData.amount data) (Salary.amount r) (Salary.amount r') /\
  (prop (SalaryData.amount data) <> VUndefined -> is_number (Salary.amount r')) /\
  (is_number (Salary.amount r) -> is_number (Salary.amount r')).
Proof.
  unfold salary_frame, kept. simpl.
  repeat split; try (now intros ->).
  - intros Hd. destruct (prop (SalaryData.amount data)); solve [congruence | now eexists].
  - intros Hn. destruct (prop (SalaryData.amount data)); solve [assumption | now eexists].
Qed.

Lemma mergeExpense_frame {rt : Runtime} (data : ExpenseData.t) (r : Expense.t) :
  let r' := InMemoryStorage.mergeExpense r data in
  expense_frame data r r' /\
  Expense.createdAt r' = Expense.createdAt r /\
  kept (ExpenseData.amount data) (Expense.amount r) (Expense.amount r') /\
  (prop (ExpenseData.amount data) <> VUndefined -> is_number (Expense.amount r')) /\
  (is_number (Expense.amount r) -> is_number (Expense.amount r')).
Proof.
  unfold expense_frame, kept. simpl.
  repeat split; try (now intros ->).
  - intros Hd. destruct (prop (ExpenseData.amount data)); solve [congruence | now eexists].
  - intros Hn. destruct (prop (ExpenseData.amount data)); solve [assumption | now eexists].
Qed.

(** C1 does not hold as stated.  An update of the stored expense 1 on the
    persistent backend that carries only a new effective date: the creation
    timestamp, which the update does not mention, is replaced, and so is the
    amount. *)
Lemma persistent_update_touches_unspecified_fields :
  let u := UpdateExpense.mk 1
             (ExpenseData.mk None None None (Some (VString "2024-01-15"))) in
  let w' := (PostgresStorage.updateExpense (rt := Sample.runtime) u Sample.database).2 in
  Db.rows (PostgresStorage.expenses (heap Sample.database)) = [Sample.expense1] /\
  exists r', Db.rows (PostgresStorage.expenses (heap w')) = [r'] /\
    Expense.createdAt Sample.expense1 = VDate (Some 1705312345678) /\
    Expense.createdAt r' = VDate (Some 1705276800000) /\
    Expense.createdAt r' <> Expense.createdAt Sample.expense1 /\
    Expense.amount Sample.expense1 = VInt 40 /\
    Expense.amount r' = VNumber NaN.
Proof.
  simpl. split; [reflexivity|]. eexists. split; [reflexivity|]. simpl.
  repeat split. discriminate.
Qed.

(** C1 (as the code has it).  An update leaves every field it does not mention
    as it was, with these provisos.  On the ephemeral backend this covers all
    fields of the first record with the identifier, the amount and the
    creation timestamp included, and an amount that is given is stored as a
    number.  On the persistent backend it covers the fields other than the
    amount, and an amount that is given is stored as a number; the creation
    timestamp of an expense is kept when the update carries no effective
    date. *)
Theorem update_frame {rt : Runtime} {sc : Schema} (id : Z)
    (salary : SalaryData.t) (expense : ExpenseData.t)
    (pw : World PostgresStorage.t) (mw : World InMemoryStorage.t) (i : nat) :
  (forall r, first_with_id Salary.id id (InMemoryStorage.salaries (heap mw)) i r ->
     exists r',
       InMemoryStorage.updateSalary id salary mw
       = (Some r',
          mkWorld (InMemoryStorage.set_salaries
                     (<[i := r']> (InMemoryStorage.salaries (heap mw))) (heap mw))
                  (ticks mw)) /\
       salary_frame salary r r' /\
       kept (SalaryData.amount salary) (Salary.amount r) (Salary.amount r') /\
       (prop (SalaryData.amount salary) <> VUndefined -> is_number (Salary.amount r')) /\
       (is_number (Salary.amount r) -> is_number (Salary.amount r'))) /\
  (forall r, first_with_id Expense.id id (InMemoryStorage.expenses (heap mw)) i r ->
     exists r',
       InMemoryStorage.updateExpense id expense mw
       = (Some r',
          mkWorld (InMemoryStorage.set_expenses
                     (<[i := r']> (InMemoryStorage.expenses (heap mw))) (heap mw))
                  (ticks mw)) /\
       expense_frame expense r r' /\
       Expense.createdAt r' = Expense.createdAt r /\
       kept (ExpenseData.amount expense) (Expense.amount r) (Expense.amount r') /\
       (prop (ExpenseData.amount expense) <> VUndefined -> is_number (Expense.amount r')) /\
       (is_number (Expense.amount r) -> is_number (Expense.amount r'))) /\
  (forall r, Db.rows (PostgresStorage.salaries (heap pw)) !! i = Some r ->
     Salary.id r = id ->
     exists r',
       Db.rows (PostgresStorage.salaries
                  (heap (PostgresStorage.updateSalary (UpdateSalary.mk id salary) pw).2)) !! i
       = Some r' /\
       salary_frame salary r r' /\
       (is_Some (SalaryData.amount salary) -> is_number (Salary.amount r'))) /\
  (forall r, Db.rows (PostgresStorage.expenses (heap pw)) !! i = Some r ->
     Expense.id r = id ->
     exists r',
       Db.rows (PostgresStorage.expenses
                  (heap (PostgresStorage.updateExpense (UpdateExpense.mk id expense) pw).2)) !! i
       = Some r' /\
       expense_frame expense r r' /\
       kept (ExpenseData.date expense) (Expense.createdAt r) (Expense.createdAt r') /\
       (is_Some (ExpenseData.amount expense) -> is_number (Expense.amount r'))).
Proof.
  split; [|split; [|split]].
  - intros r Hfirst. pose proof (findIndex_first _ _ _ _ _ Hfirst) as Hidx.
    destruct Hfirst as (Hi & _ & _).
    exists (InMemoryStorage.mergeSalary r salary).
    split; [|apply mergeSalary_frame].
    unfold InMemoryStorage.updateSalary, bind, get, put, ret. simpl.
    rewrite Hidx. replace (Z.of_nat i =? -1) with false by (symmetry; apply Z.eqb_neq; lia).
    now rewrite Nat2Z.id, Hi.
  - intros r Hfirst. pose proof (findIndex_first _ _ _ _ _ Hfirst) as Hidx.
    destruct Hfirst as (Hi & _ & _).
    exists (InMemoryStorage.mergeExpense r expense).
    split; [|apply mergeExpense_frame].
    unfold InMemoryStorage.updateExpense, bind, get, put, ret. simpl.
    rewrite Hidx. replace (Z.of_nat i =? -1) with false by (symmetry; apply Z.eqb_neq; lia).
    now rewrite Nat2Z.id, Hi.
  - intros r Hi Hid.
    destruct (updateSalary_rows (UpdateSalary.mk id salary) pw) as [-> _].
    rewrite update_returning_lookup, Hi. simpl.
    apply Z.eqb_eq in Hid. rewrite Hid.
    eexists; split; [reflexivity|].
    destruct (setSalary_frame salary r) as [Hf Hn]. auto.
  - intros r Hi Hid.
    destruct (updateExpense_rows (UpdateExpense.mk id expense) pw) as [-> _].
    rewrite update_returning_lookup, Hi. simpl.
    apply Z.eqb_eq in Hid. rewrite Hid.
    eexists; split; [reflexivity|].
    destruct (setExpense_frame expense r) as (Hf & Hc & Hn). auto.
Qed.

Lemma update_frame_witness :
  let salary := SalaryData.mk (Some (VString "2500")) (Some (VString "Feb")) None None None in
  let expense := ExpenseData.mk None None (Some (VString "dinner")) None in
  (exists r',
     (InMemoryStorage.updateSalary (rt := Sample.runtime) 1 salary Sample.memory).1 = Some r' /\
     Salary.amount r' = VInt 2500 /\ Salary.month r' = VString "Feb" /\
     salary_frame salary Sample.salary1 r') /\
  (exists r',
     (InMemoryStorage.updateExpense (rt := Sample.runtime) 1 expense Sample.memory).1 = Some r' /\
     Expense.amount r' = VInt 40 /\ Expense.description r' = VString "dinner" /\
     expense_frame expense Sample.expense1 r') /\
  (exists r',
     Db.rows (PostgresStorage.salaries (heap
       (PostgresStorage.updateSalary (rt := Sample.runtime)
          (UpdateSalary.mk 1 salary) Sample.database).2)) !! 0%nat = Some r' /\
     salary_frame salary Sample.salary1 r' /\ is_number (Salary.amount r')) /\
  (exists r',
     Db.rows (PostgresStorage.expenses (heap
       (PostgresStorage.updateExpense (rt := Sample.runtime)
          (UpdateExpense.mk 1 expense) Sample.database).2)) !! 0%nat = Some r' /\
     expense_frame expense Sample.expense1 r' /\
     Expense.createdAt r' = Expense.createdAt Sample.expense1).
Proof.
  intros salary expense.
  destruct (update_frame (rt := Sample.runtime) (sc := Sample.schema) 1 salary expense
              Sample.database Sample.memory 0%nat) as (A & B & C & D).
  split; [|split; [|split]].
  - destruct (A Sample.salary1) as (r' & Hr & Hf & _).
    { split; [reflexivity|]. split; [reflexivity|constructor]. }
    exists r'. rewrite Hr. split; [reflexivity|].
    injection Hr as <-. split; [reflexivity|]. split; [reflexivity|exact Hf].
  - destruct (B Sample.expense1) as (r' & Hr & Hf & _).
    { split; [reflexivity|]. split; [reflexivity|constructor]. }
    exists r'. rewrite Hr. split; [reflexivity|].
    injection Hr as <-. split; [reflexivity|]. split; [reflexivity|exact Hf].
  - destruct (C Sample.salary1 eq_refl eq_refl) as (r' & Hr & Hf & Hn).
    exists r'. split; [exact Hr|]. split; [exact Hf|]. apply Hn. now eexists.
  - destruct (D Sample.expense1 eq_refl eq_refl) as (r' & Hr & Hf & Hc & _).
    exists r'. split; [exact Hr|]. split; [exact Hf|]. now apply Hc.
Defined.

(** ** C2: what delete reports *)

(** On the ephemeral backend, deleting the identifier of a stored record
    removes the first record with it and answers true. *)
Lemma ephemeral_delete_stored {rt : Runtime} (id : Z) (w : World InMemoryStorage.t) (i : nat) :
  (forall r, first_with_id Salary.id id (InMemoryStorage.salaries (heap w)) i r ->
     InMemoryStorage.deleteSalary id w
     = (true, mkWorld (InMemoryStorage.set_salaries
                         (delete i (InMemoryStorage.salaries (heap w))) (heap w)) (ticks w))) /\
  (forall r, first_with_id Expense.id id (InMemoryStorage.expenses (heap w)) i r ->
     InMemoryStorage.deleteExpense id w
     = (true, mkWorld (InMemoryStorage.set_expenses
                         (delete i (InMemoryStorage.expenses (heap w))) (heap w)) (ticks w))) /\
  (forall r, first_with_id Expense.id id (InMemoryStorage.indianExpenses (heap w)) i r ->
     InMemoryStorage.deleteIndianExpense id w
     = (true, mkWorld (InMemoryStorage.set_indianExpenses
                         (delete i (InMemoryStorage.indianExpenses (heap w))) (heap w))
                      (ticks w))).
Proof.
  split; [|split]; intros r Hfirst; pose proof (findIndex_first _ _ _ _ _ Hfirst) as Hidx.
  - unfold InMemoryStorage.deleteSalary, bind, get, put, ret. simpl. rewrite Hidx.
    replace (Z.of_nat i =? -1) with false by (symmetry; apply Z.eqb_neq; lia).
    now rewrite Nat2Z.id.
  - unfold InMemoryStorage.deleteExpense, bind, get, put, ret. simpl. rewrite Hidx.
    replace (Z.of_nat i =? -1) with false by (symmetry; apply Z.eqb_neq; lia).
    now rewrite Nat2Z.id.
  - unfold InMemoryStorage.deleteIndianExpense, bind, get, put, ret. simpl. rewrite Hidx.
    replace (Z.of_nat i =? -1) with false by (symmetry; apply Z.eqb_neq; lia).
    now rewrite Nat2Z.id.
Qed.

(** Deleting an identifier that is not stored answers false and changes
    nothing. *)
Lemma ephemeral_delete_missing {rt : Runtime} (id : Z) (w : World InMemoryStorage.t) :
  (Forall (fun r => Salary.id r <> id) (InMemoryStorage.salaries (heap w)) ->
   InMemoryStorage.deleteSalary id w = (false, w)) /\
  (Forall (fun r => Expense.id r <> id) (InMemoryStorage.expenses (heap w)) ->
   InMemoryStorage.deleteExpense id w = (false, w)) /\
  (Forall (fun r => Expense.id r <> id) (InMemoryStorage.indianExpenses (heap w)) ->
   InMemoryStorage.deleteIndianExpense id w = (false, w)).
Proof.
  destruct w as [s t]. split; [|split]; intros F; simpl in F.
  - unfold InMemoryStorage.deleteSalary, bind, get, ret. simpl.
    now rewrite (findIndex_unmatched _ _ _ F).
  - unfold InMemoryStorage.deleteExpense, bind, get, ret. simpl.
    now rewrite (findIndex_unmatched _ _ _ F).
  - unfold InMemoryStorage.deleteIndianExpense, bind, get, ret. simpl.
    now rewrite (findIndex_unmatched _ _ _ F).
Qed.

(** On the persistent backend the answer is false whatever was deleted: the
    delete statement resolves to the driver's result object, and an object
    compared with 0 converts to NaN. *)
Lemma persistent_delete_answers_false {rt : Runtime} (id : Z) (w : World PostgresStorage.t) :
  (PostgresStorage.deleteSalary id w).1 = false /\
  (PostgresStorage.deleteExpense id w).1 = false.
Proof. split; reflexivity. Qed.

(** C2, at the failing input.  On the persistent backend holding a salary and
    an expense with identifier 1, deleting identifier 1 removes the record and
    still answers false. *)
Theorem persistent_delete_of_stored_record :
  Db.rows (PostgresStorage.salaries (heap Sample.database)) = [Sample.salary1] /\
  Salary.id Sample.salary1 = 1 /\
  PostgresStorage.deleteSalary (rt := Sample.runtime) 1 Sample.database
  = (false,
     mkWorld (PostgresStorage.mk (Db.mkTable [] 2) (Db.mkTable [Sample.expense1] 2)) 0) /\
  Db.rows (PostgresStorage.expenses (heap Sample.database)) = [Sample.expense1] /\
  Expense.id Sample.expense1 = 1 /\
  PostgresStorage.deleteExpense (rt := Sample.runtime) 1 Sample.database
  = (false,
     mkWorld (PostgresStorage.mk (Db.mkTable [Sample.salary1] 2) (Db.mkTable [] 2)) 0).
Proof. repeat split. Qed.

(** ** C7: identifiers handed out by the ephemeral backend *)

(** Unfolds a method down to the state it reads and writes. *)
Ltac unfold_methods :=
  unfold Session.exec,
    InMemoryStorage.getSalaries, InMemoryStorage.createSalary, InMemoryStorage.addSalary,
    InMemoryStorage.updateSalary, InMemoryStorage.deleteSalary,
    InMemoryStorage.getExpenses, InMemoryStorage.addExpense, InMemoryStorage.createExpense,
    InMemoryStorage.updateExpense, InMemoryStorage.deleteExpense,
    InMemoryStorage.getIndianExpenses, InMemoryStorage.createIndianExpense,
    InMemoryStorage.deleteIndianExpense,
    InMemoryStorage.next_salaryId, InMemoryStorage.next_expenseId,
    InMemoryStorage.next_indianExpenseId,
    Date_of_or_now, or_elseM, current_year, Date_new, bind, get, put, ret.

(** Splits on the tests a method makes. *)
Ltac split_tests :=
  repeat match goal with
    | |- context [if ?b then _ else _] => destruct b eqn:?
    | |- context [match ?l !! ?i with _ => _ end] => destruct (l !! i) eqn:?
    end.

(** A call that adds to category [k] answers with the counter of [k] and
    advances it by one; any other call leaves that counter alone. *)
Lemma exec_counter {rt : Runtime} (k : Session.category) (c : Session.call)
    (w : World InMemoryStorage.t) :
  let (r, w') := Session.exec c w in
  if Session.adds_to k c
  then Session.added_id k r = Some (Session.counter k (heap w)) /\
       Session.counter k (heap w') = Session.counter k (heap w) + 1
  else Session.added_id k r = None /\
       Session.counter k (heap w') = Session.counter k (heap w).
Proof.
  destruct c, k; unfold_methods; simpl; split_tests; simpl; split; reflexivity.
Qed.

Lemma added_ids_from {rt : Runtime} (k : Session.category) (cs : list Session.call)
    (w : World InMemoryStorage.t) :
  Session.added_ids k (Session.run cs w).1
  = from_to (Session.counter k (heap w)) (Session.additions k cs).
Proof.
  revert w. induction cs as [|c cs IH]; intros w; [reflexivity|].
  pose proof (exec_counter k c w) as Hc.
  simpl. unfold bind at 1. destruct (Session.exec c w) as [r w'].
  unfold bind at 1. specialize (IH w'). destruct (Session.run cs w') as [rs w''].
  unfold ret, Session.added_ids, Session.additions in *. simpl in *.
  change (list_omap _ _ (Session.added_id k) rs) with (omap (Session.added_id k) rs).
  destruct (Session.adds_to k c); destruct Hc as [-> Hw]; simpl; rewrite IH, Hw; reflexivity.
Qed.

Lemma from_to_lower (a : Z) (n : nat) : Forall (fun x => a <= x) (from_to a n).
Proof.
  revert a. induction n as [|n IH]; intros a; simpl; constructor; [lia|].
  eapply Forall_impl; [apply IH|]. simpl. intros; lia.
Qed.

Lemma from_to_increasing (a : Z) (n : nat) : StronglySorted Z.lt (from_to a n).
Proof.
  revert a. induction n as [|n IH]; intros a; simpl; constructor; [apply IH|].
  eapply Forall_impl; [apply from_to_lower|]. simpl. intros; lia.
Qed.

Lemma increasing_NoDup (l : list Z) : StronglySorted Z.lt l -> NoDup l.
Proof.
  induction 1 as [|x l _ IH Hx]; constructor; [|exact IH].
  intros Hin. rewrite Forall_forall in Hx. specialize (Hx _ Hin). lia.
Qed.

(** C7. On a fresh ephemeral backend, whatever calls are made, the identifiers
    returned by the additions to one category are 1, 2, 3, ... in the order of
    the additions: they start at 1, strictly increase, never repeat (deleted
    identifiers are not reused), and depend on no call to another category. *)
Theorem identifiers_of_additions {rt : Runtime} (k : Session.category)
    (cs : list Session.call) :
  let ids := Session.added_ids k (Session.run cs Session.start).1 in
  ids = from_to 1 (Session.additions k cs) /\
  StronglySorted Z.lt ids /\
  NoDup ids.
Proof.
  intros ids. assert (E : ids = from_to 1 (Session.additions k cs)).
  { unfold ids. rewrite added_ids_from. now destruct k. }
  split; [exact E|]. rewrite E.
  split; [|apply increasing_NoDup]; apply from_to_increasing.
Qed.

(** ** The order of creation timestamps *)

#[local] Instance by_time_total {A} (column : A -> value) : Total (Db.by_time column).
Proof.
  intros a b. unfold Db.by_time, Db.time_le.
  destruct (Db.time_key (column a)), (Db.time_key (column b)); simpl; auto; lia.
Qed.

(** The persistent backend lists the rows of the table, sorted. *)
Lemma select_orderBy_sorted {A} (column : A -> value) (tb : Db.Table A) :
  Sorted (Db.by_time column) (Db.select_orderBy column tb) /\
  Permutation (Db.select_orderBy column tb) (Db.rows tb).
Proof.
  split; [apply Sorted_merge_sort, _ | apply merge_sort_Permutation].
Qed.

Section Chronological.
Context {rt : Runtime} (Hclock : monotone_clock).

Lemma chronological_later (n m : nat) (stamps : list value) :
  (n <= m)%nat -> chronological n stamps -> chronological m stamps.
Proof.
  intros Hnm [Hs Hf]. split; [exact Hs|].
  eapply Forall_impl; [exact Hf|]. intros v (k & Hk & ->). exists k. split; [lia|reflexivity].
Qed.

(** A record stamped now goes after all those stamped earlier. *)
Lemma chronological_push (n k : nat) (stamps : list value) :
  (n <= k)%nat -> chronological n stamps ->
  chronological (Datatypes.S k) (stamps ++ [VDate (Some (Date_now k))]).
Proof.
  intros Hnk [Hs Hf]. split.
  - apply StronglySorted_app_2; [|exact Hs|repeat constructor].
    intros v1 v2 H1 H2. apply list_elem_of_singleton in H2 as ->.
    rewrite Forall_forall in Hf. destruct (Hf _ H1) as (j & Hj & ->).
    unfold Db.time_le. simpl. apply Hclock. lia.
  - apply Forall_app. split.
    + eapply Forall_impl; [exact Hf|]. intros v (j & Hj & ->). exists j. split; [lia|reflexivity].
    + repeat constructor. exists k. split; [lia|reflexivity].
Qed.

Lemma chronological_delete (n i : nat) (stamps : list value) :
  chronological n stamps -> chronological n (delete i stamps).
Proof.
  intros [Hs Hf]. split; [|now apply Forall_delete].
  rewrite delete_take_drop. rewrite <- (take_drop i stamps) in Hs.
  apply StronglySorted_app in Hs as (Hcross & Hl & Hr).
  apply StronglySorted_app_2; [|exact Hl|].
  - intros v1 v2 H1 H2. apply Hcross; [exact H1|].
    rewrite <- (take_drop 1 (drop i stamps)), drop_drop.
    apply elem_of_app. right. now rewrite Nat.add_1_r.
  - rewrite <- (take_drop 1 (drop i stamps)), drop_drop in Hr.
    apply StronglySorted_app_1_r in Hr. now rewrite Nat.add_1_r in Hr.
Qed.
End Chronological.

(** Every call keeps the collections in creation order. *)
Lemma exec_in_creation_order {rt : Runtime} (c : Session.call) (w : World InMemoryStorage.t) :
  monotone_clock -> in_creation_order w -> in_creation_order (Session.exec c w).2.
Proof.
  intros Hclock (Hs & He & Hi). unfold in_creation_order.
  destruct c; unfold_methods; simpl; split_tests; simpl;
    (split; [|split]);
    first
      [ assumption
      | rewrite fmap_app; simpl; apply (chronological_push Hclock (ticks w)); [lia | assumption]
      | rewrite list_fmap_insert; simpl; rewrite list_insert_id;
        [assumption | rewrite list_lookup_fmap; simpl;
                      match goal with E : _ !! _ = Some _ |- _ => now rewrite E end]
      | rewrite list_fmap_delete; now apply chronological_delete
      | eapply chronological_later; [|eassumption]; lia ].
Qed.

Lemma run_in_creation_order {rt : Runtime} (cs : list Session.call)
    (w : World InMemoryStorage.t) :
  monotone_clock -> in_creation_order w -> in_creation_order (Session.run cs w).2.
Proof.
  intros Hclock. revert w. induction cs as [|c cs IH]; intros w Hw; [exact Hw|].
  simpl. unfold bind at 1.
  pose proof (exec_in_creation_order c w Hclock Hw) as Hc.
  destruct (Session.exec c w) as [r w']. unfold bind at 1.
  specialize (IH w' Hc). now destruct (Session.run cs w') as [rs w''].
Qed.

Lemma start_in_creation_order {rt : Runtime} : in_creation_order Session.start.
Proof. repeat split; constructor. Qed.

(** Stamps in ascending order mean records in ascending order. *)
Lemma sorted_by_stamps {A} (column : A -> value) (l : list A) :
  StronglySorted Db.time_le (column <$> l) -> Sorted (Db.by_time column) l.
Proof.
  intros Hs. apply StronglySorted_Sorted.
  induction l as [|x l IH]; [constructor|].
  rewrite fmap_cons in Hs. apply StronglySorted_cons in Hs as [Hx Hl].
  constructor; [now apply IH|]. exact (proj1 (Forall_fmap column _ l) Hx).
Qed.

(** * Further properties of the ephemeral backend *)

(** ** Identifiers of the stored records *)

Lemma increasing_below_push (next : Z) (ids : list Z) :
  increasing_below next ids -> increasing_below (next + 1) (ids ++ [next]).
Proof.
  intros (Hn & Hs & Hf). split; [lia|]. split.
  - apply StronglySorted_app_2; [|exact Hs|repeat constructor].
    intros x y Hx Hy. apply list_elem_of_singleton in Hy as ->.
    rewrite Forall_forall in Hf. specialize (Hf _ Hx). lia.
  - apply Forall_app. split; [|repeat constructor; lia].
    eapply Forall_impl; [exact Hf|]. simpl. intros; lia.
Qed.

Lemma strongly_sorted_delete {A} (R : relation A) (i : nat) (l : list A) :
  StronglySorted R l -> StronglySorted R (delete i l).
Proof.
  intros Hs. rewrite delete_take_drop. rewrite <- (take_drop i l) in Hs.
  apply StronglySorted_app in Hs as (Hcross & Hl & Hr).
  apply StronglySorted_app_2; [|exact Hl|].
  - intros x y Hx Hy. apply Hcross; [exact Hx|].
    rewrite <- (take_drop 1 (drop i l)), drop_drop.
    apply elem_of_app. right. now rewrite Nat.add_1_r.
  - rewrite <- (take_drop 1 (drop i l)), drop_drop in Hr.
    apply StronglySorted_app_1_r in Hr. now rewrite Nat.add_1_r in Hr.
Qed.

Lemma increasing_below_delete (next : Z) (i : nat) (ids : list Z) :
  increasing_below next ids -> increasing_below next (delete i ids).
Proof.
  intros (Hn & Hs & Hf). split; [exact Hn|].
  split; [now apply strongly_sorted_delete | now apply Forall_delete].
Qed.

Lemma increasing_below_NoDup (next : Z) (ids : list Z) :
  increasing_below next ids -> NoDup ids.
Proof. intros (_ & Hs & _). now apply increasing_NoDup. Qed.

Lemma exec_identifiers_in_order {rt : Runtime} (c : Session.call)
    (w : World InMemoryStorage.t) :
  identifiers_in_order (heap w) -> identifiers_in_order (heap (Session.exec c w).2).
Proof.
  intros (Hs & He & Hi). unfold identifiers_in_order.
  destruct c; unfold_methods; simpl; split_tests; simpl;
    (split; [|split]);
    first
      [ assumption
      | rewrite fmap_app; simpl; now apply increasing_below_push
      | rewrite list_fmap_insert; simpl; rewrite list_insert_id;
        [assumption | rewrite list_lookup_fmap; simpl;
                      match goal with E : _ !! _ = Some _ |- _ => now rewrite E end]
      | rewrite list_fmap_delete; now apply increasing_below_delete ].
Qed.

(** What holds of a fresh backend and is kept by every call holds of every
    reachable state. *)
Lemma reachable_ind {rt : Runtime} (P : World InMemoryStorage.t -> Prop) :
  P Session.start ->
  (forall c w, P w -> P (Session.exec c w).2) ->
  forall w, reachable w -> P w.
Proof.
  intros Hstart Hstep w [cs ->].
  assert (G : forall w0, P w0 -> P (Session.run cs w0).2).
  { induction cs as [|c cs IH]; intros w0 Hw0; [exact Hw0|].
    simpl. unfold bind at 1.
    pose proof (Hstep c w0 Hw0) as Hc.
    destruct (Session.exec c w0) as [r w']. unfold bind at 1.
    specialize (IH w' Hc). now destruct (Session.run cs w') as [rs w'']. }
  now apply G.
Qed.

Lemma reachable_identifiers_in_order {rt : Runtime} (w : World InMemoryStorage.t) :
  reachable w -> identifiers_in_order (heap w).
Proof.
  apply (reachable_ind (fun w => identifiers_in_order (heap w))).
  - repeat split; simpl; try lia; constructor.
  - intros c w0. apply exec_identifiers_in_order.
Qed.

Lemma increasing_below_bounds {A} (idcol : A -> Z) (next : Z) (l : list A) :
  increasing_below next (idcol <$> l) ->
  NoDup (idcol <$> l) /\ Forall (fun r => 1 <= idcol r < next) l.
Proof.
  intros H. split; [eapply increasing_below_NoDup, H|].
  destruct H as (_ & _ & Hf). exact (proj1 (Forall_fmap idcol _ l) Hf).
Qed.

(** X1. After any sequence of calls on a fresh ephemeral backend, no two
    records of a collection share an identifier, and every stored identifier
    is at least 1 and below the counter that gives the next one. *)
Theorem stored_identifiers_distinct {rt : Runtime} (cs : list Session.call) :
  let s := heap (Session.run cs Session.start).2 in
  (NoDup (Salary.id <$> InMemoryStorage.salaries s) /\
   Forall (fun r => 1 <= Salary.id r < InMemoryStorage.salaryId s)
          (InMemoryStorage.salaries s)) /\
  (NoDup (Expense.id <$> InMemoryStorage.expenses s) /\
   Forall (fun r => 1 <= Expense.id r < InMemoryStorage.expenseId s)
          (InMemoryStorage.expenses s)) /\
  (NoDup (Expense.id <$> InMemoryStorage.indianExpenses s) /\
   Forall (fun r => 1 <= Expense.id r < InMemoryStorage.indianExpenseId s)
          (InMemoryStorage.indianExpenses s)).
Proof.
  intros s.
  destruct (reachable_identifiers_in_order (Session.run cs Session.start).2)
    as (Hs & He & Hi); [now exists cs|].
  split; [|split]; now apply increasing_below_bounds.
Qed.

(** ** The types of the stored values *)

Lemma Date_of_is_date {rt : Runtime} (v : value) : is_date (Date_of v).
Proof. destruct v; simpl; now eexists. Qed.

Lemma mergeSalary_typed {rt : Runtime} (r : Salary.t) (data : SalaryData.t) :
  salary_typed r -> salary_typed (InMemoryStorage.mergeSalary r data).
Proof.
  intros (Ha & Hd & Hc). unfold salary_typed. simpl. split; [|split]; [| |exact Hc].
  - destruct (prop (SalaryData.amount data)); solve [assumption | now eexists].
  - destruct (truthy (prop (SalaryData.date data))); [apply Date_of_is_date | exact Hd].
Qed.

Lemma mergeExpense_typed {rt : Runtime} (r : Expense.t) (data : ExpenseData.t) :
  expense_typed r -> expense_typed (InMemoryStorage.mergeExpense r data).
Proof.
  intros (Ha & Hd & Hc). unfold expense_typed. simpl. split; [|split]; [| |exact Hc].
  - destruct (prop (ExpenseData.amount data)); solve [assumption | now eexists].
  - destruct (truthy (prop (ExpenseData.date data))); [apply Date_of_is_date | exact Hd].
Qed.

Lemma Forall_insert_found {A} (P : A -> Prop) (f : A -> A) (l : list A) (i : nat) (x : A) :
  (forall y, P y -> P (f y)) -> l !! i = Some x -> Forall P l -> Forall P (<[i := f x]> l).
Proof.
  intros Hf Hi Hl. apply Forall_insert; [exact Hl|].
  apply Hf. rewrite Forall_forall in Hl. apply Hl. eapply list_elem_of_lookup_2, Hi.
Qed.

Lemma exec_records_typed {rt : Runtime} (c : Session.call) (w : World InMemoryStorage.t) :
  records_typed (heap w) -> records_typed (heap (Session.exec c w).2).
Proof.
  intros (Hs & He & Hi). unfold records_typed.
  destruct c; unfold_methods; simpl; split_tests; simpl;
    (split; [|split]);
    first
      [ assumption
      | apply Forall_app; split; [assumption|];
        repeat constructor; simpl; solve [now eexists | apply Date_of_is_date]
      | match goal with E : _ !! _ = Some _ |- _ =>
          first [ exact (Forall_insert_found _ (fun r => InMemoryStorage.mergeSalary r _)
                           _ _ _ (fun y => mergeSalary_typed y _) E Hs)
                | exact (Forall_insert_found _ (fun r => InMemoryStorage.mergeExpense r _)
                           _ _ _ (fun y => mergeExpense_typed y _) E He) ]
        end
      | now apply Forall_delete ].
Qed.

(** X2. After any sequence of calls on a fresh ephemeral backend, every
    stored record has a number as amount (possibly NaN) and [Date] objects as
    date and creation timestamp, whatever the callers supplied. *)
Theorem stored_records_typed {rt : Runtime} (cs : list Session.call) :
  let s := heap (Session.run cs Session.start).2 in
  Forall salary_typed (InMemoryStorage.salaries s) /\
  Forall expense_typed (InMemoryStorage.expenses s) /\
  Forall expense_typed (InMemoryStorage.indianExpenses s).
Proof.
  intros s.
  apply (reachable_ind (fun w => records_typed (heap w))).
  - repeat split; constructor.
  - intros c w0. apply exec_records_typed.
  - now exists cs.
Qed.

(** ** Independence of the categories *)

(** X3. A call on one category leaves the records and the counter of the two
    other categories exactly as they were. *)
Theorem call_leaves_other_categories {rt : Runtime} (c : Session.call)
    (k : Session.category) (w : World InMemoryStorage.t) :
  k <> Session.category_of c ->
  Session.untouched k (heap w) (heap (Session.exec c w).2).
Proof.
  intros Hk.
  destruct c, k; simpl in Hk; try congruence;
    unfold_methods; simpl; split_tests; simpl; split; reflexivity.
Qed.

Lemma call_leaves_other_categories_witness :
  let w' := (Session.exec (rt := Sample.runtime) (Session.DeleteSalary 1) Sample.memory).2 in
  InMemoryStorage.salaries (heap w') = [] /\
  InMemoryStorage.expenses (heap w') = [Sample.expense1] /\
  InMemoryStorage.expenseId (heap w') = 2.
Proof.
  split; [reflexivity|].
  apply (call_leaves_other_categories (rt := Sample.runtime) (Session.DeleteSalary 1)
           Session.ExpenseC Sample.memory).
  discriminate.
Defined.

(** ** Updates and deletes on the ephemeral backend *)

(** The search for an identifier either fails, and then no element has it, or
    finds the first element that has it. *)
Lemma findIndex_id {A} (idcol : A -> Z) (id : Z) (l : list A) :
  (findIndex (fun x => idcol x =? id) l = -1 /\ Forall (fun x => idcol x <> id) l) \/
  (exists i r, findIndex (fun x => idcol x =? id) l = Z.of_nat i /\
               first_with_id idcol id l i r).
Proof.
  destruct (Z.eq_dec (findIndex (fun x => idcol x =? id) l) (-1)) as [E|E].
  - left. split; [exact E|]. apply findIndex_none in E.
    eapply Forall_impl; [exact E|]. simpl. intros x Hx. now apply Z.eqb_neq.
  - right. destruct (findIndex_lookup _ _ E) as (r & Hr & Hp & Hbefore).
    pose proof (findIndex_range (fun x => idcol x =? id) l) as [?|Hrange]; [contradiction|].
    exists (Z.to_nat (findIndex (fun x => idcol x =? id) l)), r.
    split; [lia|]. split; [exact Hr|]. split; [now apply Z.eqb_eq|].
    eapply Forall_impl; [exact Hbefore|]. simpl. intros x Hx. now apply Z.eqb_neq.
Qed.

(** Replacing an element by one with the same identifier does not change
    what a search finds. *)
Lemma findIndex_insert {A} (idcol : A -> Z) (id : Z) (l : list A) (i : nat) (r r' : A) :
  l !! i = Some r -> idcol r' = idcol r ->
  findIndex (fun x => idcol x =? id) (<[i := r']> l) = findIndex (fun x => idcol x =? id) l.
Proof.
  revert i. induction l as [|x l IH]; intros i Hi Hid; [reflexivity|].
  destruct i as [|i]; simpl in *.
  - injection Hi as ->. now rewrite Hid.
  - now rewrite (IH i Hi Hid).
Qed.

Lemma mergeSalary_empty {rt : Runtime} (r : Salary.t) :
  InMemoryStorage.mergeSalary r SalaryData.empty = r.
Proof. now destruct r. Qed.

Lemma mergeExpense_empty {rt : Runtime} (r : Expense.t) :
  InMemoryStorage.mergeExpense r ExpenseData.empty = r.
Proof. now destruct r. Qed.

Lemma mergeSalary_twice {rt : Runtime} (r : Salary.t) (data : SalaryData.t) :
  InMemoryStorage.mergeSalary (InMemoryStorage.mergeSalary r data) data
  = InMemoryStorage.mergeSalary r data.
Proof.
  unfold InMemoryStorage.mergeSalary. simpl. f_equal.
  - destruct (prop (SalaryData.amount data)) as [| |[]| | |[]|]; reflexivity.
  - now destruct (SalaryData.month data).
  - now destruct (SalaryData.year data).
  - now destruct (SalaryData.notes data).
  - now destruct (truthy (prop (SalaryData.date data))).
Qed.

Lemma mergeExpense_twice {rt : Runtime} (r : Expense.t) (data : ExpenseData.t) :
  InMemoryStorage.mergeExpense (InMemoryStorage.mergeExpense r data) data
  = InMemoryStorage.mergeExpense r data.
Proof.
  unfold InMemoryStorage.mergeExpense. simpl. f_equal.
  - destruct (prop (ExpenseData.amount data)) as [| |[]| | |[]|]; reflexivity.
  - now destruct (ExpenseData.category data).
  - now destruct (ExpenseData.description data).
  - now destruct (truthy (prop (ExpenseData.date data))).
Qed.

(** What [updateSalary] and [updateExpense] do, by cases on the search. *)
Lemma updateSalary_cases {rt : Runtime} (id : Z) (data : SalaryData.t)
    (w : World InMemoryStorage.t) :
  (Forall (fun r => Salary.id r <> id) (InMemoryStorage.salaries (heap w)) /\
   InMemoryStorage.updateSalary id data w = (None, w)) \/
  (exists i r,
     first_with_id Salary.id id (InMemoryStorage.salaries (heap w)) i r /\
     InMemoryStorage.updateSalary id data w
     = (Some (InMemoryStorage.mergeSalary r data),
        mkWorld (InMemoryStorage.set_salaries
                   (<[i := InMemoryStorage.mergeSalary r data]>
                      (InMemoryStorage.salaries (heap w))) (heap w)) (ticks w))).
Proof.
  destruct (findIndex_id Salary.id id (InMemoryStorage.salaries (heap w)))
    as [[E F] | (i & r & E & Hfirst)].
  - left. split; [exact F|].
    unfold InMemoryStorage.updateSalary, bind, get, ret. simpl. rewrite E. now destruct w.
  - right. exists i, r. split; [exact Hfirst|]. destruct Hfirst as (Hi & _).
    unfold InMemoryStorage.updateSalary, bind, get, put, ret. simpl. rewrite E.
    replace (Z.of_nat i =? -1) with false by (symmetry; apply Z.eqb_neq; lia).
    now rewrite Nat2Z.id, Hi.
Qed.

Lemma updateExpense_cases {rt : Runtime} (id : Z) (data : ExpenseData.t)
    (w : World InMemoryStorage.t) :
  (Forall (fun r => Expense.id r <> id) (InMemoryStorage.expenses (heap w)) /\
   InMemoryStorage.updateExpense id data w = (None, w)) \/
  (exists i r,
     first_with_id Expense.id id (InMemoryStorage.expenses (heap w)) i r /\
     InMemoryStorage.updateExpense id data w
     = (Some (InMemoryStorage.mergeExpense r data),
        mkWorld (InMemoryStorage.set_expenses
                   (<[i := InMemoryStorage.mergeExpense r data]>
                      (InMemoryStorage.expenses (heap w))) (heap w)) (ticks w))).
Proof.
  destruct (findIndex_id Expense.id id (InMemoryStorage.expenses (heap w)))
    as [[E F] | (i & r & E & Hfirst)].
  - left. split; [exact F|].
    unfold InMemoryStorage.updateExpense, bind, get, ret. simpl. rewrite E. now destruct w.
  - right. exists i, r. split; [exact Hfirst|]. destruct Hfirst as (Hi & _).
    unfold InMemoryStorage.updateExpense, bind, get, put, ret. simpl. rewrite E.
    replace (Z.of_nat i =? -1) with false by (symmetry; apply Z.eqb_neq; lia).
    now rewrite Nat2Z.id, Hi.
Qed.

(** X4. On the ephemeral backend an update that carries no field changes
    nothing: the state is left as it was, and the result is null when the
    identifier is not stored and otherwise the first stored record with that
    identifier, as it is. *)
Theorem update_without_fields {rt : Runtime} (id : Z) (w : World InMemoryStorage.t) :
  (InMemoryStorage.updateSalary id SalaryData.empty w).2 = w /\
  match (InMemoryStorage.updateSalary id SalaryData.empty w).1 with
  | None => Forall (fun r => Salary.id r <> id) (InMemoryStorage.salaries (heap w))
  | Some r => exists i, first_with_id Salary.id id (InMemoryStorage.salaries (heap w)) i r
  end /\
  (InMemoryStorage.updateExpense id ExpenseData.empty w).2 = w /\
  match (InMemoryStorage.updateExpense id ExpenseData.empty w).1 with
  | None => Forall (fun r => Expense.id r <> id) (InMemoryStorage.expenses (heap w))
  | Some r => exists i, first_with_id Expense.id id (InMemoryStorage.expenses (heap w)) i r
  end.
Proof.
  assert (Hs : (InMemoryStorage.updateSalary id SalaryData.empty w).2 = w /\
    match (InMemoryStorage.updateSalary id SalaryData.empty w).1 with
    | None => Forall (fun r => Salary.id r <> id) (InMemoryStorage.salaries (heap w))
    | Some r => exists i, first_with_id Salary.id id (InMemoryStorage.salaries (heap w)) i r
    end).
  { destruct (updateSalary_cases id SalaryData.empty w) as [[F ->] | (i & r & Hf & ->)].
    - now split.
    - rewrite mergeSalary_empty. simpl. split; [|now exists i].
      destruct Hf as (Hi & _). rewrite (list_insert_id _ _ _ Hi).
      now destruct w as [[]]. }
  assert (He : (InMemoryStorage.updateExpense id ExpenseData.empty w).2 = w /\
    match (InMemoryStorage.updateExpense id ExpenseData.empty w).1 with
    | None => Forall (fun r => Expense.id r <> id) (InMemoryStorage.expenses (heap w))
    | Some r => exists i, first_with_id Expense.id id (InMemoryStorage.expenses (heap w)) i r
    end).
  { destruct (updateExpense_cases id ExpenseData.empty w) as [[F ->] | (i & r & Hf & ->)].
    - now split.
    - rewrite mergeExpense_empty. simpl. split; [|now exists i].
      destruct Hf as (Hi & _). rewrite (list_insert_id _ _ _ Hi).
      now destruct w as [[]]. }
  tauto.
Qed.

(** X5. On the ephemeral backend an update is idempotent: repeating it with
    the same identifier and fields returns the same result and leaves the
    state the first one left. *)
Theorem update_twice {rt : Runtime} (id : Z) (salary : SalaryData.t)
    (expense : ExpenseData.t) (w : World InMemoryStorage.t) :
  InMemoryStorage.updateSalary id salary (InMemoryStorage.updateSalary id salary w).2
  = InMemoryStorage.updateSalary id salary w /\
  InMemoryStorage.updateExpense id expense (InMemoryStorage.updateExpense id expense w).2
  = InMemoryStorage.updateExpense id expense w.
Proof.
  split.
  - destruct (updateSalary_cases id salary w) as [[F E] | (i & r & (Hi & Hid & Hb) & E)];
      rewrite E; simpl; [exact E|].
    unfold InMemoryStorage.updateSalary, bind, get, put, ret. simpl.
    rewrite (findIndex_insert Salary.id id _ i r (InMemoryStorage.mergeSalary r salary) Hi eq_refl).
    rewrite (findIndex_first _ _ _ _ _ (conj Hi (conj Hid Hb))).
    replace (Z.of_nat i =? -1) with false by (symmetry; apply Z.eqb_neq; lia).
    rewrite Nat2Z.id, list_lookup_insert_eq by (eapply lookup_lt_Some, Hi).
    now rewrite mergeSalary_twice, list_insert_insert_eq.
  - destruct (updateExpense_cases id expense w) as [[F E] | (i & r & (Hi & Hid & Hb) & E)];
      rewrite E; simpl; [exact E|].
    unfold InMemoryStorage.updateExpense, bind, get, put, ret. simpl.
    rewrite (findIndex_insert Expense.id id _ i r (InMemoryStorage.mergeExpense r expense) Hi eq_refl).
    rewrite (findIndex_first _ _ _ _ _ (conj Hi (conj Hid Hb))).
    replace (Z.of_nat i =? -1) with false by (symmetry; apply Z.eqb_neq; lia).
    rewrite Nat2Z.id, list_lookup_insert_eq by (eapply lookup_lt_Some, Hi).
    now rewrite mergeExpense_twice, list_insert_insert_eq.
Qed.

(** X6. On the ephemeral backend a delete answers false and keeps the
    collection when no record has the identifier; otherwise it answers true
    and removes the first record with the identifier and no other.  This holds
    for salaries, expenses and regional expenses. *)
Theorem delete_removes_first_match {rt : Runtime} (id : Z) (w : World InMemoryStorage.t) :
  delete_outcome Salary.id id (InMemoryStorage.salaries (heap w))
    (InMemoryStorage.deleteSalary id w).1
    (InMemoryStorage.salaries (heap (InMemoryStorage.deleteSalary id w).2)) /\
  delete_outcome Expense.id id (InMemoryStorage.expenses (heap w))
    (InMemoryStorage.deleteExpense id w).1
    (InMemoryStorage.expenses (heap (InMemoryStorage.deleteExpense id w).2)) /\
  delete_outcome Expense.id id (InMemoryStorage.indianExpenses (heap w))
    (InMemoryStorage.deleteIndianExpense id w).1
    (InMemoryStorage.indianExpenses (heap (InMemoryStorage.deleteIndianExpense id w).2)).
Proof.
  destruct (ephemeral_delete_missing id w) as (Ms & Me & Mi).
  split; [|split].
  - destruct (findIndex_id Salary.id id (InMemoryStorage.salaries (heap w)))
      as [[_ F] | (i & r & _ & Hfirst)].
    + left. rewrite (Ms F). auto.
    + right. destruct (ephemeral_delete_stored id w i) as (S & _ & _).
      rewrite (S r Hfirst). simpl. split; [reflexivity|]. now exists i, r.
  - destruct (findIndex_id Expense.id id (InMemoryStorage.expenses (heap w)))
      as [[_ F] | (i & r & _ & Hfirst)].
    + left. rewrite (Me F). auto.
    + right. destruct (ephemeral_delete_stored id w i) as (_ & S & _).
      rewrite (S r Hfirst). simpl. split; [reflexivity|]. now exists i, r.
  - destruct (findIndex_id Expense.id id (InMemoryStorage.indianExpenses (heap w)))
      as [[_ F] | (i & r & _ & Hfirst)].
    + left. rewrite (Mi F). auto.
    + right. destruct (ephemeral_delete_stored id w i) as (_ & _ & S).
      rewrite (S r Hfirst). simpl. split; [reflexivity|]. now exists i, r.
Qed.

(** Where identifiers are distinct, removing a record removes its
    identifier. *)
Lemma delete_distinct {A} (idcol : A -> Z) (l : list A) (i : nat) (r : A) :
  NoDup (idcol <$> l) -> l !! i = Some r ->
  Forall (fun x => idcol x <> idcol r) (delete i l).
Proof.
  intros Hnd Hi. rewrite <- (take_drop_middle l i r Hi) in Hnd.
  rewrite fmap_app, fmap_cons in Hnd.
  apply NoDup_app in Hnd as (Hl & Hcross & Hr). apply NoDup_cons in Hr as (Hr & _).
  rewrite delete_take_drop. apply Forall_app. split; apply Forall_forall; intros x Hx E.
  - apply (Hcross (idcol x)); [now apply list_elem_of_fmap_2|]. rewrite E. left.
  - apply Hr. rewrite <- E. now apply list_elem_of_fmap_2.
Qed.

(** X7. After any sequence of calls on a fresh ephemeral backend, deleting an
    identifier leaves no record with it: a second delete answers false and an
    update returns null, both without changing the state. *)
Theorem deleted_identifier_is_gone {rt : Runtime} (cs : list Session.call) (id : Z)
    (salary : SalaryData.t) (expense : ExpenseData.t) :
  let w := (Session.run cs Session.start).2 in
  let ws := (InMemoryStorage.deleteSalary id w).2 in
  let we := (InMemoryStorage.deleteExpense id w).2 in
  (Forall (fun r => Salary.id r <> id) (InMemoryStorage.salaries (heap ws)) /\
   InMemoryStorage.deleteSalary id ws = (false, ws) /\
   InMemoryStorage.updateSalary id salary ws = (None, ws)) /\
  (Forall (fun r => Expense.id r <> id) (InMemoryStorage.expenses (heap we)) /\
   InMemoryStorage.deleteExpense id we = (false, we) /\
   InMemoryStorage.updateExpense id expense we = (None, we)).
Proof.
  intros w ws we.
  destruct (reachable_identifiers_in_order w) as (Is & Ie & _); [now exists cs|].
  apply increasing_below_NoDup in Is, Ie.
  split.
  - assert (F : Forall (fun r => Salary.id r <> id) (InMemoryStorage.salaries (heap ws))).
    { unfold ws.
      destruct (findIndex_id Salary.id id (InMemoryStorage.salaries (heap w)))
        as [[_ F] | (i & r & _ & Hfirst)].
      - destruct (ephemeral_delete_missing id w) as (M & _). now rewrite (M F).
      - destruct (ephemeral_delete_stored id w i) as (S & _). rewrite (S r Hfirst). simpl.
        destruct Hfirst as (Hi & <- & _). now apply delete_distinct. }
    split; [exact F|]. split.
    + now apply (ephemeral_delete_missing id ws).
    + destruct (updateSalary_cases id salary ws) as [[_ E] | (i & r & (Hi & Hid & _) & _)];
        [exact E|].
      rewrite Forall_forall in F. exfalso. apply (F r); [|exact Hid].
      eapply list_elem_of_lookup_2, Hi.
  - assert (F : Forall (fun r => Expense.id r <> id) (InMemoryStorage.expenses (heap we))).
    { unfold we.
      destruct (findIndex_id Expense.id id (InMemoryStorage.expenses (heap w)))
        as [[_ F] | (i & r & _ & Hfirst)].
      - destruct (ephemeral_delete_missing id w) as (_ & M & _). now rewrite (M F).
      - destruct (ephemeral_delete_stored id w i) as (_ & S & _). rewrite (S r Hfirst). simpl.
        destruct Hfirst as (Hi & <- & _). now apply delete_distinct. }
    split; [exact F|]. split.
    + now apply (ephemeral_delete_missing id we).
    + destruct (updateExpense_cases id expense we) as [[_ E] | (i & r & (Hi & Hid & _) & _)];
        [exact E|].
      rewrite Forall_forall in F. exfalso. apply (F r); [|exact Hid].
      eapply list_elem_of_lookup_2, Hi.
Qed.

(** ** Adding, then addressing what was added *)

Lemma first_with_id_last {A} (idcol : A -> Z) (l : list A) (r : A) :
  Forall (fun x => idcol x <> idcol r) l ->
  first_with_id idcol (idcol r) (l ++ [r]) (length l) r.
Proof.
  intros F. split; [|split; [reflexivity|]].
  - rewrite lookup_app_r by lia. now rewrite Nat.sub_diag.
  - now rewrite take_app_length.
Qed.

(** The state an addition leaves: the record at the end of its collection,
    the counter advanced, the identifier the old counter. *)
Lemma createSalary_state {rt : Runtime} (data : SalaryData.t) (w : World InMemoryStorage.t) :
  exists r t,
    InMemoryStorage.createSalary data w
    = (r, mkWorld (InMemoryStorage.mk (InMemoryStorage.salaries (heap w) ++ [r])
                     (InMemoryStorage.expenses (heap w))
                     (InMemoryStorage.indianExpenses (heap w))
                     (InMemoryStorage.salaryId (heap w) + 1)
                     (InMemoryStorage.expenseId (heap w))
                     (InMemoryStorage.indianExpenseId (heap w))) t) /\
    Salary.id r = InMemoryStorage.salaryId (heap w).
Proof.
  unfold_methods. simpl. split_tests; simpl; eexists; eexists; split; reflexivity.
Qed.

Lemma createExpense_state {rt : Runtime} (data : ExpenseData.t)
    (w : World InMemoryStorage.t) :
  exists r t,
    InMemoryStorage.createExpense data w
    = (r, mkWorld (InMemoryStorage.mk (InMemoryStorage.salaries (heap w))
                     (InMemoryStorage.expenses (heap w) ++ [r])
                     (InMemoryStorage.indianExpenses (heap w))
                     (InMemoryStorage.salaryId (heap w))
                     (InMemoryStorage.expenseId (heap w) + 1)
                     (InMemoryStorage.indianExpenseId (heap w))) t) /\
    Expense.id r = InMemoryStorage.expenseId (heap w).
Proof.
  unfold_methods. simpl. eexists; eexists; split; reflexivity.
Qed.

Lemma below_is_different {A} (idcol : A -> Z) (next : Z) (l : list A) (r : A) :
  Forall (fun x => 1 <= idcol x < next) l -> idcol r = next ->
  Forall (fun x => idcol x <> idcol r) l.
Proof.
  intros F E. eapply Forall_impl; [exact F|]. simpl. intros; lia.
Qed.

(** X8. After any sequence of calls on a fresh ephemeral backend, the
    identifier an addition returns addresses the record just added: an update
    without fields returns that very record, and a delete answers true and
    puts the collection back as it was before the addition, while the counter
    stays advanced, so that the identifier is not handed out again. *)
Theorem added_record_is_addressable {rt : Runtime} (cs : list Session.call)
    (salary : SalaryData.t) (expense : ExpenseData.t) :
  let w := (Session.run cs Session.start).2 in
  (let (r, w1) := InMemoryStorage.createSalary salary w in
   InMemoryStorage.updateSalary (Salary.id r) SalaryData.empty w1 = (Some r, w1) /\
   (InMemoryStorage.deleteSalary (Salary.id r) w1).1 = true /\
   InMemoryStorage.salaries (heap (InMemoryStorage.deleteSalary (Salary.id r) w1).2)
   = InMemoryStorage.salaries (heap w) /\
   InMemoryStorage.salaryId (heap (InMemoryStorage.deleteSalary (Salary.id r) w1).2)
   = InMemoryStorage.salaryId (heap w) + 1) /\
  (let (r, w1) := InMemoryStorage.createExpense expense w in
   InMemoryStorage.updateExpense (Expense.id r) ExpenseData.empty w1 = (Some r, w1) /\
   (InMemoryStorage.deleteExpense (Expense.id r) w1).1 = true /\
   InMemoryStorage.expenses (heap (InMemoryStorage.deleteExpense (Expense.id r) w1).2)
   = InMemoryStorage.expenses (heap w) /\
   InMemoryStorage.expenseId (heap (InMemoryStorage.deleteExpense (Expense.id r) w1).2)
   = InMemoryStorage.expenseId (heap w) + 1).
Proof.
  intros w.
  destruct (reachable_identifiers_in_order w) as (Is & Ie & _); [now exists cs|].
  apply increasing_below_bounds in Is as [_ Is], Ie as [_ Ie].
  split.
  - destruct (createSalary_state salary w) as (r & t & -> & Hid).
    pose proof (first_with_id_last Salary.id _ r (below_is_different _ _ _ r Is Hid))
      as Hfirst.
    split.
    + destruct (updateSalary_cases (Salary.id r) SalaryData.empty
                  (mkWorld (InMemoryStorage.mk (InMemoryStorage.salaries (heap w) ++ [r])
                     (InMemoryStorage.expenses (heap w))
                     (InMemoryStorage.indianExpenses (heap w))
                     (InMemoryStorage.salaryId (heap w) + 1)
                     (InMemoryStorage.expenseId (heap w))
                     (InMemoryStorage.indianExpenseId (heap w))) t))
        as [[F _] | (i & r0 & Hf0 & ->)].
      * simpl in F. apply Forall_app in F as [_ F]. inversion F; subst. congruence.
      * simpl in Hf0.
        assert (Z.of_nat i = Z.of_nat (length (InMemoryStorage.salaries (heap w)))) as Ei.
        { rewrite <- (findIndex_first _ _ _ _ _ Hf0). exact (findIndex_first _ _ _ _ _ Hfirst). }
        apply Nat2Z.inj in Ei. subst i.
        destruct Hf0 as (Hi & _), Hfirst as (Hi' & _).
        rewrite Hi' in Hi. injection Hi as <-.
        rewrite mergeSalary_empty. simpl. now rewrite (list_insert_id _ _ _ Hi').
    + destruct (ephemeral_delete_stored (Salary.id r)
                  (mkWorld (InMemoryStorage.mk (InMemoryStorage.salaries (heap w) ++ [r])
                     (InMemoryStorage.expenses (heap w))
                     (InMemoryStorage.indianExpenses (heap w))
                     (InMemoryStorage.salaryId (heap w) + 1)
                     (InMemoryStorage.expenseId (heap w))
                     (InMemoryStorage.indianExpenseId (heap w))) t)
                  (length (InMemoryStorage.salaries (heap w)))) as (S & _).
      rewrite (S r Hfirst). simpl.
      split; [reflexivity|]. split; [|reflexivity].
      rewrite delete_take_drop, take_app_length.
      rewrite drop_ge by (rewrite length_app; simpl; lia).
      apply app_nil_r.
  - destruct (createExpense_state expense w) as (r & t & -> & Hid).
    pose proof (first_with_id_last Expense.id _ r (below_is_different _ _ _ r Ie Hid))
      as Hfirst.
    split.
    + destruct (updateExpense_cases (Expense.id r) ExpenseData.empty
                  (mkWorld (InMemoryStorage.mk (InMemoryStorage.salaries (heap w))
                     (InMemoryStorage.expenses (heap w) ++ [r])
                     (InMemoryStorage.indianExpenses (heap w))
                     (InMemoryStorage.salaryId (heap w))
                     (InMemoryStorage.expenseId (heap w) + 1)
                     (InMemoryStorage.indianExpenseId (heap w))) t))
        as [[F _] | (i & r0 & Hf0 & ->)].
      * simpl in F. apply Forall_app in F as [_ F]. inversion F; subst. congruence.
      * simpl in Hf0.
        assert (Z.of_nat i = Z.of_nat (length (InMemoryStorage.expenses (heap w)))) as Ei.
        { rewrite <- (findIndex_first _ _ _ _ _ Hf0). exact (findIndex_first _ _ _ _ _ Hfirst). }
        apply Nat2Z.inj in Ei. subst i.
        destruct Hf0 as (Hi & _), Hfirst as (Hi' & _).
        rewrite Hi' in Hi. injection Hi as <-.
        rewrite mergeExpense_empty. simpl. now rewrite (list_insert_id _ _ _ Hi').
    + destruct (ephemeral_delete_stored (Expense.id r)
                  (mkWorld (InMemoryStorage.mk (InMemoryStorage.salaries (heap w))
                     (InMemoryStorage.expenses (heap w) ++ [r])
                     (InMemoryStorage.indianExpenses (heap w))
                     (InMemoryStorage.salaryId (heap w))
                     (InMemoryStorage.expenseId (heap w) + 1)
                     (InMemoryStorage.indianExpenseId (heap w))) t)
                  (length (InMemoryStorage.expenses (heap w)))) as (_ & S & _).
      rewrite (S r Hfirst). simpl.
      split; [reflexivity|]. split; [|reflexivity].
      rewrite delete_take_drop, take_app_length.
      rewrite drop_ge by (rewrite length_app; simpl; lia).
      apply app_nil_r.
Qed.

(** ** Falsy fields of a new salary *)

(** X9. On the ephemeral backend a new salary takes the default for every
    field whose supplied value is falsy, not only for fields left out: an
    amount of 0 or of the empty string becomes 0, a year of 0 becomes the
    current year, null notes become the empty string, an empty date becomes
    the time of the call.  A truthy month, year or notes value is stored as it
    is, a truthy amount as its numeric conversion and a truthy date as the
    date built from it. *)
Theorem falsy_fields_take_defaults {rt : Runtime} (data : SalaryData.t)
    (w : World InMemoryStorage.t) :
  let (r, w') := InMemoryStorage.createSalary data w in
  let amount := prop (SalaryData.amount data) in
  let month := prop (SalaryData.month data) in
  let year := prop (SalaryData.year data) in
  let notes := prop (SalaryData.notes data) in
  let date := prop (SalaryData.date data) in
  (truthy amount = false -> Salary.amount r = VInt 0) /\
  (truthy amount = true -> Salary.amount r = VNumber (Number amount)) /\
  (truthy month = false -> Salary.month r = VString "") /\
  (truthy month = true -> Salary.month r = month) /\
  (truthy year = false -> Salary.year r = VInt (YearFromTime (Date_now (ticks w)))) /\
  (truthy year = true -> Salary.year r = year) /\
  (truthy notes = false -> Salary.notes r = VString "") /\
  (truthy notes = true -> Salary.notes r = notes) /\
  (truthy date = false ->
   exists k, (ticks w <= k < ticks w')%nat /\ Salary.date r = VDate (Some (Date_now k))) /\
  (truthy date = true -> Salary.date r = Date_of date).
Proof.
  unfold InMemoryStorage.createSalary, InMemoryStorage.next_salaryId, Date_of_or_now,
    or_elseM, or_else, current_year, Date_new, bind, get, put, ret.
  destruct (truthy (prop (SalaryData.amount data))) eqn:Ta;
    destruct (truthy (prop (SalaryData.month data))) eqn:Tm;
    destruct (truthy (prop (SalaryData.year data))) eqn:Ty;
    destruct (truthy (prop (SalaryData.notes data))) eqn:Tn;
    destruct (truthy (prop (SalaryData.date data))) eqn:Td; simpl;
    repeat (split; [intros; try discriminate; try reflexivity|]);
    intros; try discriminate; try reflexivity;
    first [ exists (ticks w); split; [lia | reflexivity]
          | exists (Datatypes.S (ticks w)); split; [lia | reflexivity] ].
Qed.

Lemma falsy_fields_take_defaults_witness :
  let data := SalaryData.mk (Some (VString "")) (Some VNull) (Some (VInt 0))
                (Some (VBool false)) (Some (VString "")) in
  let r := (InMemoryStorage.createSalary (rt := Sample.runtime) data Session.start).1 in
  Salary.amount r = VInt 0 /\ Salary.month r = VString "" /\ Salary.year r = VInt 2023 /\
  Salary.notes r = VString "" /\
  exists k, (0 <= k < 3)%nat /\ Salary.date r = VDate (Some (1700000000000 + Z.of_nat k)).
Proof.
  intros data r. subst r.
  pose proof (falsy_fields_take_defaults (rt := Sample.runtime) data Session.start) as H.
  destruct (InMemoryStorage.createSalary (rt := Sample.runtime) data Session.start)
    as [r0 w'] eqn:E.
  vm_compute in E. injection E as <- <-.
  destruct H as (A & _ & M & _ & Y & _ & N & _ & D & _).
  split; [now apply A|]. split; [now apply M|]. split; [now apply Y|].
  split; [now apply N|]. now apply D.
Defined.

(** * Further properties of the persistent backend *)

(** ** What an update reaches *)

Lemma updateSalary_result {rt : Runtime} {sc : Schema} (u : UpdateSalary.t)
    (w : World PostgresStorage.t) :
  (PostgresStorage.updateSalary u w).1
  = match first (Db.update_returning Salary.id
                   (PostgresStorage.setSalary (UpdateSalary.values u))
                   (UpdateSalary.id u) (PostgresStorage.salaries (heap w))).1 with
    | None => Throw ("Salary with id " ++ pretty (UpdateSalary.id u) ++ " not found")
    | Some salary => Ok salary
    end.
Proof.
  unfold PostgresStorage.updateSalary, PostgresStorage.on_salaries, bind, get, put, ret.
  simpl. now destruct (first _).
Qed.

Lemma updateExpense_result {rt : Runtime} {sc : Schema} (u : UpdateExpense.t)
    (w : World PostgresStorage.t) :
  (PostgresStorage.updateExpense u w).1
  = match first (Db.update_returning Expense.id
                   (PostgresStorage.setExpense (UpdateExpense.values u))
                   (UpdateExpense.id u) (PostgresStorage.expenses (heap w))).1 with
    | None => Throw ("Expense with id " ++ pretty (UpdateExpense.id u) ++ " not found")
    | Some expense => Ok expense
    end.
Proof.
  unfold PostgresStorage.updateExpense, PostgresStorage.on_expenses, bind, get, put, ret.
  simpl. now destruct (first _).
Qed.

(** The first row an update statement returns is the first matching row,
    updated. *)
Lemma update_returning_first {A} (idcol : A -> Z) (set : A -> A) (id : Z)
    (tb : Db.Table A) (i : nat) (r : A) :
  (forall x, idcol (set x) = idcol x) ->
  first_with_id idcol id (Db.rows tb) i r ->
  first (Db.update_returning idcol set id tb).1 = Some (set r).
Proof.
  intros Hset. unfold Db.update_returning, first_with_id. simpl.
  generalize (Db.rows tb). clear tb. intros l. revert i.
  induction l as [|x l IH]; intros i (Hi & Hid & Hbefore); [discriminate|].
  destruct i as [|i]; simpl in *.
  - injection Hi as ->. pose proof Hid as Hid'. apply Z.eqb_eq in Hid'. rewrite Hid'.
    rewrite filter_cons. destruct (decide (idcol (set r) = id)) as [|N]; [reflexivity|].
    rewrite Hset in N. contradiction.
  - inversion Hbefore as [|? ? Hx Hrest]; subst.
    pose proof Hx as Hx'. apply Z.eqb_neq in Hx'. rewrite Hx'.
    rewrite filter_cons. destruct (decide (idcol x = idcol r)); [contradiction|].
    now apply (IH i).
Qed.

(** Some element has the identifier exactly when a first one does. *)
Lemma first_with_id_exists {A} (idcol : A -> Z) (id : Z) (l : list A) (x : A) :
  x ∈ l -> idcol x = id -> exists i r, first_with_id idcol id l i r.
Proof.
  intros Hx Hid.
  destruct (findIndex_id idcol id l) as [[_ F] | (i & r & _ & Hfirst)]; [|now exists i, r].
  rewrite Forall_forall in F. now destruct (F x Hx).
Qed.

(** X10. An update on the persistent backend reaches only the rows with the
    given identifier: every other row stays where and as it was, the number of
    rows and the identifier sequence do not change, and the other table is not
    touched. *)
Theorem persistent_update_reaches_only_its_rows {rt : Runtime} {sc : Schema} (id : Z)
    (salary : SalaryData.t) (expense : ExpenseData.t) (w : World PostgresStorage.t) :
  let ws := heap (PostgresStorage.updateSalary (UpdateSalary.mk id salary) w).2 in
  let we := heap (PostgresStorage.updateExpense (UpdateExpense.mk id expense) w).2 in
  (forall i r, Db.rows (PostgresStorage.salaries (heap w)) !! i = Some r ->
     Salary.id r <> id -> Db.rows (PostgresStorage.salaries ws) !! i = Some r) /\
  length (Db.rows (PostgresStorage.salaries ws))
  = length (Db.rows (PostgresStorage.salaries (heap w))) /\
  Db.serial (PostgresStorage.salaries ws) = Db.serial (PostgresStorage.salaries (heap w)) /\
  PostgresStorage.expenses ws = PostgresStorage.expenses (heap w) /\
  (forall i r, Db.rows (PostgresStorage.expenses (heap w)) !! i = Some r ->
     Expense.id r <> id -> Db.rows (PostgresStorage.expenses we) !! i = Some r) /\
  length (Db.rows (PostgresStorage.expenses we))
  = length (Db.rows (PostgresStorage.expenses (heap w))) /\
  Db.serial (PostgresStorage.expenses we) = Db.serial (PostgresStorage.expenses (heap w)) /\
  PostgresStorage.salaries we = PostgresStorage.salaries (heap w).
Proof.
  intros ws we.
  destruct (updateSalary_rows (UpdateSalary.mk id salary) w) as [Es Es'].
  destruct (updateExpense_rows (UpdateExpense.mk id expense) w) as [Ee Ee'].
  fold ws in Es, Es'. fold we in Ee, Ee'. rewrite Es, Ee. simpl.
  split; [|split; [|split; [|split; [|split; [|split; [|split]]]]]];
    try reflexivity; try assumption; try apply length_map.
  - intros i r Hi Hid.
    pose proof (update_returning_lookup Salary.id (PostgresStorage.setSalary salary) id
                  (PostgresStorage.salaries (heap w)) i) as L.
    simpl in L. rewrite L, Hi. simpl. apply Z.eqb_neq in Hid. now rewrite Hid.
  - intros i r Hi Hid.
    pose proof (update_returning_lookup Expense.id (PostgresStorage.setExpense expense) id
                  (PostgresStorage.expenses (heap w)) i) as L.
    simpl in L. rewrite L, Hi. simpl. apply Z.eqb_neq in Hid. now rewrite Hid.
Qed.

Lemma persistent_update_reaches_only_its_rows_witness :
  let w' := (PostgresStorage.updateSalary (rt := Sample.runtime)
               (UpdateSalary.mk 2 (SalaryData.mk (Some (VInt 5)) None None None None))
               Sample.database2).2 in
  Db.rows (PostgresStorage.salaries (heap w')) !! 0%nat = Some Sample.salary1 /\
  (exists r', Db.rows (PostgresStorage.salaries (heap w')) !! 1%nat = Some r' /\
              Salary.amount r' = VInt 5 /\ Salary.amount Sample.salary2 = VInt 1200) /\
  length (Db.rows (PostgresStorage.salaries (heap w'))) = 2%nat /\
  PostgresStorage.expenses (heap w') = PostgresStorage.expenses (heap Sample.database2).
Proof.
  destruct (persistent_update_reaches_only_its_rows (rt := Sample.runtime)
              (sc := Sample.schema) 2
              (SalaryData.mk (Some (VInt 5)) None None None None) ExpenseData.empty
              Sample.database2) as (H & L & _ & E & _).
  split; [apply H; [reflexivity | discriminate]|].
  split; [eexists; split; [reflexivity | split; reflexivity]|].
  split; [exact L | exact E].
Defined.

(** X11. When a row has the identifier, an update on the persistent backend
    does not throw: it returns the first such row with the new values set, and
    that is the row stored in its place. *)
Theorem persistent_update_returns_stored_row {rt : Runtime} {sc : Schema} (id : Z)
    (salary : SalaryData.t) (expense : ExpenseData.t) (w : World PostgresStorage.t)
    (i : nat) :
  (forall r, first_with_id Salary.id id (Db.rows (PostgresStorage.salaries (heap w))) i r ->
     (PostgresStorage.updateSalary (UpdateSalary.mk id salary) w).1
     = Ok (PostgresStorage.setSalary salary r) /\
     Db.rows (PostgresStorage.salaries
                (heap (PostgresStorage.updateSalary (UpdateSalary.mk id salary) w).2)) !! i
     = Some (PostgresStorage.setSalary salary r)) /\
  (forall r, first_with_id Expense.id id (Db.rows (PostgresStorage.expenses (heap w))) i r ->
     (PostgresStorage.updateExpense (UpdateExpense.mk id expense) w).1
     = Ok (PostgresStorage.setExpense expense r) /\
     Db.rows (PostgresStorage.expenses
                (heap (PostgresStorage.updateExpense (UpdateExpense.mk id expense) w).2)) !! i
     = Some (PostgresStorage.setExpense expense r)).
Proof.
  split; intros r Hfirst.
  - split.
    + rewrite updateSalary_result. cbn [UpdateSalary.values UpdateSalary.id].
      now rewrite (update_returning_first Salary.id (PostgresStorage.setSalary salary) id _ i r
                   (fun x => eq_refl) Hfirst).
    + destruct (updateSalary_rows (UpdateSalary.mk id salary) w) as [-> _].
      destruct Hfirst as (Hi & Hid & _).
      rewrite update_returning_lookup, Hi. simpl. apply Z.eqb_eq in Hid. now rewrite Hid.
  - split.
    + rewrite updateExpense_result. cbn [UpdateExpense.values UpdateExpense.id].
      now rewrite (update_returning_first Expense.id (PostgresStorage.setExpense expense) id _ i r
                   (fun x => eq_refl) Hfirst).
    + destruct (updateExpense_rows (UpdateExpense.mk id expense) w) as [-> _].
      destruct Hfirst as (Hi & Hid & _).
      rewrite update_returning_lookup, Hi. simpl. apply Z.eqb_eq in Hid. now rewrite Hid.
Qed.

Lemma persistent_update_returns_stored_row_witness :
  let data := SalaryData.mk (Some (VString "2500")) None None (Some (VString "bonus")) None in
  exists r',
    (PostgresStorage.updateSalary (rt := Sample.runtime) (UpdateSalary.mk 1 data)
       Sample.database).1 = Ok r' /\
    Salary.amount r' = VInt 2500 /\ Salary.notes r' = VString "bonus" /\
    Salary.month r' = VString "Jan".
Proof.
  intros data.
  destruct (persistent_update_returns_stored_row (rt := Sample.runtime)
              (sc := Sample.schema) 1 data ExpenseData.empty Sample.database 0%nat)
    as (H & _).
  destruct (H Sample.salary1) as (Hr & _).
  { split; [reflexivity|]. split; [reflexivity|constructor]. }
  eexists. split; [exact Hr|]. repeat split.
Defined.

(** X12. An update on the persistent backend that leaves the amount out, or
    gives it as [undefined], replaces the stored amount of every row with the
    identifier by NaN. *)
Theorem persistent_update_without_amount {rt : Runtime} {sc : Schema} (id : Z)
    (salary : SalaryData.t) (expense : ExpenseData.t) (w : World PostgresStorage.t)
    (i : nat) :
  (forall r, Db.rows (PostgresStorage.salaries (heap w)) !! i = Some r ->
     Salary.id r = id ->
     prop (SalaryData.amount salary) = VUndefined ->
     exists r',
       Db.rows (PostgresStorage.salaries
                  (heap (PostgresStorage.updateSalary (UpdateSalary.mk id salary) w).2)) !! i
       = Some r' /\
       Salary.amount r' = VNumber NaN) /\
  (forall r, Db.rows (PostgresStorage.expenses (heap w)) !! i = Some r ->
     Expense.id r = id ->
     prop (ExpenseData.amount expense) = VUndefined ->
     exists r',
       Db.rows (PostgresStorage.expenses
                  (heap (PostgresStorage.updateExpense (UpdateExpense.mk id expense) w).2)) !! i
       = Some r' /\
       Expense.amount r' = VNumber NaN).
Proof.
  split; intros r Hi Hid Ha.
  - destruct (updateSalary_rows (UpdateSalary.mk id salary) w) as [-> _].
    rewrite update_returning_lookup, Hi. simpl. apply Z.eqb_eq in Hid. rewrite Hid.
    eexists. split; [reflexivity|]. simpl. now rewrite Ha.
  - destruct (updateExpense_rows (UpdateExpense.mk id expense) w) as [-> _].
    rewrite update_returning_lookup, Hi. simpl. apply Z.eqb_eq in Hid. rewrite Hid.
    eexists. split; [reflexivity|]. simpl. now rewrite Ha.
Qed.

Lemma persistent_update_without_amount_witness :
  Salary.amount Sample.salary1 = VInt 1000 /\
  exists r',
    Db.rows (PostgresStorage.salaries (heap
      (PostgresStorage.updateSalary (rt := Sample.runtime)
         (UpdateSalary.mk 1 (SalaryData.mk None (Some (VString "Feb")) None None None))
         Sample.database).2)) !! 0%nat = Some r' /\
    Salary.amount r' = VNumber NaN.
Proof.
  split; [reflexivity|].
  destruct (persistent_update_without_amount (rt := Sample.runtime) (sc := Sample.schema) 1
              (SalaryData.mk None (Some (VString "Feb")) None None None) ExpenseData.empty
              Sample.database 0%nat) as (H & _).
  exact (H Sample.salary1 eq_refl eq_refl eq_refl).
Defined.

(** ** Deleting and adding on the persistent backend *)

(** X13. A delete on the persistent backend removes the rows with the
    identifier and keeps every other row and the other table; an update of
    that identifier right after it throws the not-found error. *)
Theorem persistent_delete_then_update {rt : Runtime} {sc : Schema} (id : Z)
    (salary : SalaryData.t) (expense : ExpenseData.t) (w : World PostgresStorage.t) :
  let ws := (PostgresStorage.deleteSalary id w).2 in
  let we := (PostgresStorage.deleteExpense id w).2 in
  (forall r, r ∈ Db.rows (PostgresStorage.salaries (heap ws)) <->
             r ∈ Db.rows (PostgresStorage.salaries (heap w)) /\ Salary.id r <> id) /\
  PostgresStorage.expenses (heap ws) = PostgresStorage.expenses (heap w) /\
  PostgresStorage.updateSalary (UpdateSalary.mk id salary) ws
  = (Throw ("Salary with id " ++ pretty id ++ " not found"), ws) /\
  (forall r, r ∈ Db.rows (PostgresStorage.expenses (heap we)) <->
             r ∈ Db.rows (PostgresStorage.expenses (heap w)) /\ Expense.id r <> id) /\
  PostgresStorage.salaries (heap we) = PostgresStorage.salaries (heap w) /\
  PostgresStorage.updateExpense (UpdateExpense.mk id expense) we
  = (Throw ("Expense with id " ++ pretty id ++ " not found"), we).
Proof.
  intros ws we. destruct w as [[ts te] t].
  assert (Fs : Forall (fun r => Salary.id r <> id)
                 (filter (fun r => Salary.id r <> id) (Db.rows ts))).
  { apply Forall_forall. intros r Hr. now apply list_elem_of_filter in Hr. }
  assert (Fe : Forall (fun r => Expense.id r <> id)
                 (filter (fun r => Expense.id r <> id) (Db.rows te))).
  { apply Forall_forall. intros r Hr. now apply list_elem_of_filter in Hr. }
  split; [|split; [|split; [|split; [|split]]]]; try reflexivity.
  - intros r. unfold ws. simpl. rewrite list_elem_of_filter. tauto.
  - unfold ws, PostgresStorage.updateSalary, PostgresStorage.deleteSalary,
      PostgresStorage.on_salaries, bind, get, put, ret. simpl.
    now rewrite (map_unmatched _ _ _ _ Fs), (filter_unmatched _ _ _ Fs).
  - intros r. unfold we. simpl. rewrite list_elem_of_filter. tauto.
  - unfold we, PostgresStorage.updateExpense, PostgresStorage.deleteExpense,
      PostgresStorage.on_expenses, bind, get, put, ret. simpl.
    now rewrite (map_unmatched _ _ _ _ Fe), (filter_unmatched _ _ _ Fe).
Qed.

Lemma persistent_delete_then_update_witness :
  let ws := (PostgresStorage.deleteSalary (rt := Sample.runtime) 1 Sample.database).2 in
  Sample.salary1 ∈ Db.rows (PostgresStorage.salaries (heap Sample.database)) /\
  ~ Sample.salary1 ∈ Db.rows (PostgresStorage.salaries (heap ws)) /\
  PostgresStorage.updateSalary (rt := Sample.runtime) (UpdateSalary.mk 1 SalaryData.empty) ws
  = (Throw "Salary with id 1 not found", ws).
Proof.
  intros ws.
  destruct (persistent_delete_then_update (rt := Sample.runtime) (sc := Sample.schema) 1
              SalaryData.empty ExpenseData.empty Sample.database) as (H & _ & U & _).
  split; [left|]. split; [|exact U].
  intros Hin. apply H in Hin as [_ Hne]. now apply Hne.
Defined.

(** X14. On the persistent backend an update of the identifier an addition
    has just returned does not throw: it returns a record with that
    identifier. *)
Theorem persistent_add_then_update {rt : Runtime} {sc : Schema}
    (salary salary' : SalaryData.t) (expense expense' : ExpenseData.t)
    (w : World PostgresStorage.t) :
  (exists r w1 r',
     PostgresStorage.addSalary salary w = (Some r, w1) /\
     (PostgresStorage.updateSalary (UpdateSalary.mk (Salary.id r) salary') w1).1 = Ok r' /\
     Salary.id r' = Salary.id r) /\
  (exists r w1 r',
     PostgresStorage.addExpense expense w = (Some r, w1) /\
     (PostgresStorage.updateExpense (UpdateExpense.mk (Expense.id r) expense') w1).1 = Ok r' /\
     Expense.id r' = Expense.id r).
Proof.
  split.
  - destruct (PostgresStorage.addSalary salary w) as [o w1] eqn:E.
    unfold PostgresStorage.addSalary, PostgresStorage.on_salaries, Date_new,
      bind, get, put, ret in E. simpl in E. injection E as <- <-.
    eexists; eexists.
    match goal with |- context [Some ?x] => set (r := x) end.
    destruct (first_with_id_exists Salary.id (Salary.id r)
                (Db.rows (PostgresStorage.salaries (heap w)) ++ [r]) r)
      as (i & r0 & Hfirst); [apply elem_of_app; right; left | reflexivity |].
    exists (PostgresStorage.setSalary salary' r0).
    split; [reflexivity|]. split.
    + rewrite updateSalary_result.
      cbn [UpdateSalary.values UpdateSalary.id heap PostgresStorage.salaries].
      now rewrite (update_returning_first Salary.id (PostgresStorage.setSalary salary')
                     (Salary.id r) (Db.mkTable _ _) i r0 (fun x => eq_refl) Hfirst).
    + now destruct Hfirst as (_ & Hid & _).
  - destruct (PostgresStorage.addExpense expense w) as [o w1] eqn:E.
    unfold PostgresStorage.addExpense, PostgresStorage.on_expenses, Date_of_or_now,
      Date_new, bind, get, put, ret in E.
    destruct (truthy (prop (ExpenseData.date expense))); simpl in E; injection E as <- <-;
      eexists; eexists;
      match goal with |- context [Some ?x] => set (r := x) end;
      (destruct (first_with_id_exists Expense.id (Expense.id r)
                   (Db.rows (PostgresStorage.expenses (heap w)) ++ [r]) r)
         as (i & r0 & Hfirst); [apply elem_of_app; right; left | reflexivity |]);
      exists (PostgresStorage.setExpense expense' r0);
      (split; [reflexivity|]); (split; [|now destruct Hfirst as (_ & Hid & _)]);
      rewrite updateExpense_result;
      cbn [UpdateExpense.values UpdateExpense.id heap PostgresStorage.expenses];
      now rewrite (update_returning_first Expense.id (PostgresStorage.setExpense expense')
                     (Expense.id r) (Db.mkTable _ _) i r0 (fun x => eq_refl) Hfirst).
Qed.

(** X15. The backends disagree on a new salary without an amount: the
    persistent backend hands NaN to the store, the ephemeral backend stores
    0. *)
Theorem omitted_salary_amount {rt : Runtime} {sc : Schema} (salary : SalaryData.t)
    (pw : World PostgresStorage.t) (mw : World InMemoryStorage.t) :
  prop (SalaryData.amount salary) = VUndefined ->
  (exists r w',
     PostgresStorage.addSalary salary pw = (Some r, w') /\ Salary.amount r = VNumber NaN) /\
  Salary.amount (InMemoryStorage.addSalary salary mw).1 = VInt 0.
Proof.
  intros Ha. split.
  - unfold PostgresStorage.addSalary, PostgresStorage.on_salaries, Date_new,
      bind, get, put, ret. simpl.
    eexists; eexists. split; [reflexivity|]. simpl. now rewrite Ha.
  - unfold_methods. split_tests; simpl; unfold or_else; now rewrite Ha.
Qed.

Lemma omitted_salary_amount_witness :
  let salary := SalaryData.mk None (Some (VString "Jan")) (Some (VInt 2024)) None None in
  (exists r w',
     PostgresStorage.addSalary (rt := Sample.runtime) (sc := Sample.schema)
       salary Sample.database = (Some r, w') /\
     Salary.amount r = VNumber NaN) /\
  Salary.amount (InMemoryStorage.addSalary (rt := Sample.runtime) salary Sample.memory).1
  = VInt 0.
Proof.
  intros salary.
  exact (omitted_salary_amount (rt := Sample.runtime) (sc := Sample.schema)
           salary Sample.database Sample.memory eq_refl).
Defined.

(** * Updates across records and across backends *)

(** X16. On the ephemeral backend an update never adds, removes or reorders
    records and never changes an identifier or a creation timestamp; every
    record with another identifier stays where and as it was. *)
Theorem ephemeral_update_reaches_only_its_record {rt : Runtime} (id : Z)
    (salary : SalaryData.t) (expense : ExpenseData.t) (w : World InMemoryStorage.t) :
  let ls := InMemoryStorage.salaries (heap w) in
  let ls' := InMemoryStorage.salaries (heap (InMemoryStorage.updateSalary id salary w).2) in
  let le := InMemoryStorage.expenses (heap w) in
  let le' := InMemoryStorage.expenses (heap (InMemoryStorage.updateExpense id expense w).2) in
  (Salary.id <$> ls' = Salary.id <$> ls /\
   Salary.createdAt <$> ls' = Salary.createdAt <$> ls /\
   forall j r, ls !! j = Some r -> Salary.id r <> id -> ls' !! j = Some r) /\
  (Expense.id <$> le' = Expense.id <$> le /\
   Expense.createdAt <$> le' = Expense.createdAt <$> le /\
   forall j r, le !! j = Some r -> Expense.id r <> id -> le' !! j = Some r).
Proof.
  intros ls ls' le le'. split.
  - unfold ls'.
    destruct (updateSalary_cases id salary w) as [[_ ->] | (i & r & (Hi & Hid & _) & ->)];
      [now repeat split|].
    simpl. fold ls in Hi |- *. split; [|split].
    + rewrite list_fmap_insert. apply list_insert_id. now rewrite list_lookup_fmap, Hi.
    + rewrite list_fmap_insert. apply list_insert_id. now rewrite list_lookup_fmap, Hi.
    + intros j r0 Hj Hne. rewrite list_lookup_insert_ne; [exact Hj|].
      intros <-. rewrite Hi in Hj. injection Hj as <-. contradiction.
  - unfold le'.
    destruct (updateExpense_cases id expense w) as [[_ ->] | (i & r & (Hi & Hid & _) & ->)];
      [now repeat split|].
    simpl. fold le in Hi |- *. split; [|split].
    + rewrite list_fmap_insert. apply list_insert_id. now rewrite list_lookup_fmap, Hi.
    + rewrite list_fmap_insert. apply list_insert_id. now rewrite list_lookup_fmap, Hi.
    + intros j r0 Hj Hne. rewrite list_lookup_insert_ne; [exact Hj|].
      intros <-. rewrite Hi in Hj. injection Hj as <-. contradiction.
Qed.

Lemma ephemeral_update_reaches_only_its_record_witness :
  let w' := (InMemoryStorage.updateSalary (rt := Sample.runtime) 2
               (SalaryData.mk (Some (VInt 5)) None None None None) Sample.memory2).2 in
  InMemoryStorage.salaries (heap w') !! 0%nat = Some Sample.salary1 /\
  (exists r', InMemoryStorage.salaries (heap w') !! 1%nat = Some r' /\
              Salary.amount r' = VInt 5 /\ Salary.amount Sample.salary2 = VInt 1200) /\
  Salary.id <$> InMemoryStorage.salaries (heap w') = [1; 2] /\
  Salary.createdAt <$> InMemoryStorage.salaries (heap w')
  = [Salary.createdAt Sample.salary1; Salary.createdAt Sample.salary2].
Proof.
  destruct (ephemeral_update_reaches_only_its_record (rt := Sample.runtime) 2
              (SalaryData.mk (Some (VInt 5)) None None None None) ExpenseData.empty
              Sample.memory2) as ((I & C & H) & _).
  split; [apply H; [reflexivity | discriminate]|].
  split; [eexists; split; [reflexivity | split; reflexivity]|].
  split; [exact I | exact C].
Defined.

(** X17. The backends disagree on a field that an update mentions with the
    value [undefined]: the ephemeral backend stores [undefined] in place of
    the old month, year or notes, the persistent backend leaves the stored
    value alone. *)
Theorem explicitly_undefined_field {rt : Runtime} {sc : Schema} (id : Z)
    (data : SalaryData.t) (pw : World PostgresStorage.t) (mw : World InMemoryStorage.t)
    (i : nat) :
  SalaryData.month data = Some VUndefined ->
  SalaryData.year data = Some VUndefined ->
  SalaryData.notes data = Some VUndefined ->
  (forall r, first_with_id Salary.id id (InMemoryStorage.salaries (heap mw)) i r ->
     exists r',
       InMemoryStorage.salaries (heap (InMemoryStorage.updateSalary id data mw).2) !! i
       = Some r' /\
       Salary.month r' = VUndefined /\ Salary.year r' = VUndefined /\
       Salary.notes r' = VUndefined) /\
  (forall r, Db.rows (PostgresStorage.salaries (heap pw)) !! i = Some r ->
     Salary.id r = id ->
     exists r',
       Db.rows (PostgresStorage.salaries
                  (heap (PostgresStorage.updateSalary (UpdateSalary.mk id data) pw).2)) !! i
       = Some r' /\
       Salary.month r' = Salary.month r /\ Salary.year r' = Salary.year r /\
       Salary.notes r' = Salary.notes r).
Proof.
  intros Hm Hy Hn. split.
  - intros r Hfirst.
    destruct (updateSalary_cases id data mw) as [[F _] | (i' & r0 & Hf0 & ->)].
    + destruct Hfirst as (Hi & Hid & _). rewrite Forall_forall in F.
      exfalso. apply (F r); [eapply list_elem_of_lookup_2, Hi | exact Hid].
    + assert (Z.of_nat i' = Z.of_nat i) as Ei.
      { rewrite <- (findIndex_first _ _ _ _ _ Hf0). exact (findIndex_first _ _ _ _ _ Hfirst). }
      apply Nat2Z.inj in Ei. subst i'. destruct Hf0 as (Hi & _). simpl.
      eexists. split; [apply list_lookup_insert_eq; eapply lookup_lt_Some, Hi|].
      simpl. now rewrite Hm, Hy, Hn.
  - intros r Hi Hid.
    destruct (updateSalary_rows (UpdateSalary.mk id data) pw) as [-> _].
    rewrite update_returning_lookup, Hi. simpl. apply Z.eqb_eq in Hid. rewrite Hid.
    eexists. split; [reflexivity|]. simpl. now rewrite Hm, Hy, Hn.
Qed.

Lemma explicitly_undefined_field_witness :
  let data := SalaryData.mk (Some (VInt 5)) (Some VUndefined) (Some VUndefined)
                (Some VUndefined) None in
  (exists r',
     InMemoryStorage.salaries
       (heap (InMemoryStorage.updateSalary (rt := Sample.runtime) 1 data Sample.memory).2)
       !! 0%nat = Some r' /\
     Salary.month r' = VUndefined) /\
  (exists r',
     Db.rows (PostgresStorage.salaries (heap
       (PostgresStorage.updateSalary (rt := Sample.runtime) (UpdateSalary.mk 1 data)
          Sample.database).2)) !! 0%nat = Some r' /\
     Salary.month r' = VString "Jan").
Proof.
  intros data.
  destruct (explicitly_undefined_field (rt := Sample.runtime) (sc := Sample.schema) 1 data
              Sample.database Sample.memory 0%nat eq_refl eq_refl eq_refl) as (E & P).
  split.
  - destruct (E Sample.salary1) as (r' & Hr & Hm & _).
    { split; [reflexivity|]. split; [reflexivity|constructor]. }
    exists r'. auto.
  - destruct (P Sample.salary1 eq_refl eq_refl) as (r' & Hr & Hm & _).
    exists r'. split; [exact Hr|]. rewrite Hm. reflexivity.
Defined.

(** * Running the migrations *)

(** Runs [runMigrations] on every answer the host can give. *)
Ltac run_migrations :=
  unfold Migrations.runMigrations, Migrations.finally, Migrations.try_catch,
    Migrations.and_then, Migrations.if_client, Migrations.pool_connect,
    Migrations.client_query, Migrations.emit, Migrations.initial;
  simpl;
  repeat match goal with
    | |- context [match ?x with Ok _ => _ | Throw _ => _ end] =>
        destruct x as [?|?] eqn:?; simpl
    | |- context [if ?b then _ else _] => destruct b eqn:?; simpl
    end.

(** X18. [runMigrations] never rejects: whether the connection, the reading
    of the migration file, a statement or the rollback itself fails, the
    error is logged and the function resolves. *)
Theorem migrations_never_reject {host : Migrations.Host} :
  (Migrations.runMigrations Migrations.initial).1 = Ok tt.
Proof. run_migrations; reflexivity. Qed.

(** X19. [runMigrations] releases the client exactly once, as the last thing
    it does, whenever the pool gave it one, however the migration went; when
    the pool gave none it sends nothing and releases nothing, and only logs
    the error. *)
Theorem migrations_release_the_client {host : Migrations.Host} :
  match Migrations.connect with
  | Ok _ =>
      last (Migrations.trace (Migrations.runMigrations Migrations.initial).2)
      = Some Migrations.Release /\
      Migrations.releases (Migrations.trace (Migrations.runMigrations Migrations.initial).2)
      = 1%nat
  | Throw e =>
      Migrations.trace (Migrations.runMigrations Migrations.initial).2
      = [Migrations.ConsoleLog "Running database migrations...";
         Migrations.ConsoleError ["Database error:"; e];
         Migrations.ConsoleLog "Continuing with application startup..."]
  end.
Proof. run_migrations; try split; reflexivity. Qed.

(** X20. The statements [runMigrations] sends, by what the host answers:
    none when the pool gives no client or the migration file does not exist;
    BEGIN, the contents of the file and COMMIT when all goes well; and after
    any failure once a client is held, the statements sent so far followed by
    ROLLBACK, also when reading the file failed and no transaction was begun
    and when COMMIT itself failed. *)
Theorem migrations_statements {host : Migrations.Host} :
  Migrations.statements (Migrations.trace (Migrations.runMigrations Migrations.initial).2)
  = match Migrations.connect with
    | Throw _ => []
    | Ok _ =>
        if Migrations.existsSync Migrations.migrationPath
        then match Migrations.readFileSync Migrations.migrationPath with
             | Throw _ => ["ROLLBACK"]
             | Ok sql =>
                 match Migrations.query 0 "BEGIN" with
                 | Throw _ => ["BEGIN"; "ROLLBACK"]
                 | Ok _ =>
                     match Migrations.query 1 sql with
                     | Throw _ => ["BEGIN"; sql; "ROLLBACK"]
                     | Ok _ =>
                         match Migrations.query 2 "COMMIT" with
                         | Throw _ => ["BEGIN"; sql; "COMMIT"; "ROLLBACK"]
                         | Ok _ => ["BEGIN"; sql; "COMMIT"]
                         end
                     end
                 end
             end
        else []
    end.
Proof.
  destruct (Migrations.existsSync Migrations.migrationPath) eqn:Ex;
    run_migrations; rewrite ?Ex in *; simpl in *; try discriminate; reflexivity.
Qed.

(** * The records a listing returns *)

(** ** Searching, and the first record with an identifier *)

Lemma remove_first_missing {A} (idcol : A -> Z) (id : Z) (l : list A) :
  Forall (fun x => idcol x <> id) l -> remove_first idcol id l = l.
Proof.
  induction 1 as [|x l Hx _ IH]; simpl; [reflexivity|].
  apply Z.eqb_neq in Hx. now rewrite Hx, IH.
Qed.

Lemma delete_remove_first {A} (idcol : A -> Z) (id : Z) (l : list A) (i : nat) (r : A) :
  first_with_id idcol id l i r -> delete i l = remove_first idcol id l.
Proof.
  unfold first_with_id. revert i.
  induction l as [|x l IH]; intros i (Hi & Hid & Hbefore); [discriminate|].
  destruct i as [|i]; simpl in *.
  - injection Hi as ->. apply Z.eqb_eq in Hid. now rewrite Hid.
  - inversion Hbefore as [|? ? Hx Hrest]; subst.
    apply Z.eqb_neq in Hx. rewrite Hx. f_equal. now apply IH.
Qed.

Lemma insert_replace_first {A} (idcol : A -> Z) (id : Z) (new : A) (l : list A)
    (i : nat) (r : A) :
  first_with_id idcol id l i r -> <[i := new]> l = replace_first idcol id new l.
Proof.
  unfold first_with_id. revert i.
  induction l as [|x l IH]; intros i (Hi & Hid & Hbefore); [discriminate|].
  destruct i as [|i]; simpl in *.
  - injection Hi as ->. apply Z.eqb_eq in Hid. now rewrite Hid.
  - inversion Hbefore as [|? ? Hx Hrest]; subst.
    apply Z.eqb_neq in Hx. rewrite Hx. f_equal. now apply IH.
Qed.

(** ** The ephemeral backend against the contract *)

(** Each call does to each collection what its effect says. *)
Lemma exec_effect {rt : Runtime} (c : Session.call) (w : World InMemoryStorage.t) :
  let (r, w') := Session.exec c w in
  InMemoryStorage.salaries (heap w')
  = after_effect Salary.id (InMemoryStorage.salaries (heap w)) (Session.salary_effect c r) /\
  InMemoryStorage.expenses (heap w')
  = after_effect Expense.id (InMemoryStorage.expenses (heap w)) (Session.expense_effect c r) /\
  InMemoryStorage.indianExpenses (heap w')
  = after_effect Expense.id (InMemoryStorage.indianExpenses (heap w))
      (Session.indianExpense_effect c r).
Proof.
  destruct c;
    try (unfold_methods; simpl; split_tests; simpl; repeat split; reflexivity).
  - (* UpdateSalary *)
    unfold Session.exec, bind, ret.
    destruct (updateSalary_cases id data w) as [[_ ->] | (i & r & Hfirst & ->)]; simpl;
      [repeat split|].
    split; [|split; reflexivity]. now apply (insert_replace_first _ _ _ _ i r).
  - (* DeleteSalary *)
    unfold Session.exec, bind, ret.
    destruct (findIndex_id Salary.id id (InMemoryStorage.salaries (heap w)))
      as [[_ F] | (i & r & _ & Hfirst)].
    + destruct (ephemeral_delete_missing id w) as (M & _). rewrite (M F). simpl.
      split; [|split; reflexivity]. symmetry. now apply remove_first_missing.
    + destruct (ephemeral_delete_stored id w i) as (S & _). rewrite (S r Hfirst). simpl.
      split; [|split; reflexivity]. now apply (delete_remove_first _ _ _ i r).
  - (* UpdateExpense *)
    unfold Session.exec, bind, ret.
    destruct (updateExpense_cases id data w) as [[_ ->] | (i & r & Hfirst & ->)]; simpl;
      [repeat split|].
    split; [reflexivity|]. split; [|reflexivity].
    now apply (insert_replace_first _ _ _ _ i r).
  - (* DeleteExpense *)
    unfold Session.exec, bind, ret.
    destruct (findIndex_id Expense.id id (InMemoryStorage.expenses (heap w)))
      as [[_ F] | (i & r & _ & Hfirst)].
    + destruct (ephemeral_delete_missing id w) as (_ & M & _). rewrite (M F). simpl.
      split; [reflexivity|]. split; [|reflexivity]. symmetry. now apply remove_first_missing.
    + destruct (ephemeral_delete_stored id w i) as (_ & S & _). rewrite (S r Hfirst). simpl.
      split; [reflexivity|]. split; [|reflexivity]. now apply (delete_remove_first _ _ _ i r).
  - (* DeleteIndianExpense *)
    unfold Session.exec, bind, ret.
    destruct (findIndex_id Expense.id id (InMemoryStorage.indianExpenses (heap w)))
      as [[_ F] | (i & r & _ & Hfirst)].
    + destruct (ephemeral_delete_missing id w) as (_ & _ & M). rewrite (M F). simpl.
      split; [reflexivity|]. split; [reflexivity|]. symmetry. now apply remove_first_missing.
    + destruct (ephemeral_delete_stored id w i) as (_ & _ & S). rewrite (S r Hfirst). simpl.
      split; [reflexivity|]. split; [reflexivity|]. now apply (delete_remove_first _ _ _ i r).
Qed.

Lemma fold_after_effect {A B} (idcol : A -> Z) (f : B -> option (effect A))
    (h : B) (hs : list B) (l : list A) :
  fold_left (apply_effect idcol) (omap f (h :: hs)) l
  = fold_left (apply_effect idcol) (omap f hs) (after_effect idcol l (f h)).
Proof.
  change (omap f (h :: hs))
    with (match f h with Some e => e :: omap f hs | None => omap f hs end).
  now destruct (f h).
Qed.

(** After a run, each collection holds the records that survive the calls
    made, on top of what it held. *)
Lemma run_effects {rt : Runtime} (cs : list Session.call) (w : World InMemoryStorage.t) :
  let (rs, w') := Session.run cs w in
  InMemoryStorage.salaries (heap w')
  = fold_left (apply_effect Salary.id)
      (omap (fun h => Session.salary_effect h.1 h.2) (zip cs rs))
      (InMemoryStorage.salaries (heap w)) /\
  InMemoryStorage.expenses (heap w')
  = fold_left (apply_effect Expense.id)
      (omap (fun h => Session.expense_effect h.1 h.2) (zip cs rs))
      (InMemoryStorage.expenses (heap w)) /\
  InMemoryStorage.indianExpenses (heap w')
  = fold_left (apply_effect Expense.id)
      (omap (fun h => Session.indianExpense_effect h.1 h.2) (zip cs rs))
      (InMemoryStorage.indianExpenses (heap w)).
Proof.
  revert w. induction cs as [|c cs IH]; intros w; [now repeat split|].
  simpl. unfold bind at 1.
  pose proof (exec_effect c w) as Hc.
  destruct (Session.exec c w) as [r w1]. unfold bind at 1.
  specialize (IH w1). destruct (Session.run cs w1) as [rs w2].
  unfold ret. change (zip (c :: cs) (r :: rs)) with ((c, r) :: zip cs rs).
  rewrite !fold_after_effect.
  destruct Hc as (Hs & He & Hi), IH as (IHs & IHe & IHi).
  cbn [fst snd]. rewrite <- Hs, <- He, <- Hi. auto.
Qed.

(** ** The persistent backend against the contract *)

Lemma filter_all {A} (P : A -> Prop) `{forall x, Decision (P x)} (l : list A) :
  Forall P l -> filter P l = l.
Proof.
  induction 1 as [|x l Hx _ IH]; [reflexivity|].
  now rewrite filter_cons_True, IH.
Qed.

Lemma not_among_ids {A} (idcol : A -> Z) (x : A) (l : list A) :
  idcol x ∉ idcol <$> l -> Forall (fun y => idcol y <> idcol x) l.
Proof.
  intros Hx. apply Forall_forall. intros y Hy E. apply Hx. rewrite <- E.
  now apply list_elem_of_fmap_2.
Qed.

(** Where identifiers are distinct, deleting the rows with an identifier
    removes the first row that has it. *)
Lemma filter_remove_first {A} (idcol : A -> Z) (id : Z) (l : list A) :
  NoDup (idcol <$> l) ->
  filter (fun x => idcol x <> id) l = remove_first idcol id l.
Proof.
  induction l as [|x l IH]; intros Hnd; [reflexivity|].
  rewrite fmap_cons in Hnd. apply NoDup_cons in Hnd as [Hx Hnd]. simpl.
  destruct (idcol x =? id) eqn:E.
  - apply Z.eqb_eq in E. rewrite filter_cons_False by tauto.
    apply filter_all. subst id. now apply not_among_ids.
  - apply Z.eqb_neq in E. rewrite filter_cons_True by exact E. now rewrite IH.
Qed.

(** Where identifiers are distinct, an update statement that returns a row
    has put that row in place of the first row with the identifier, and one
    that returns none has changed nothing. *)
Lemma update_returning_replace_first {A} (idcol : A -> Z) (set : A -> A) (id : Z)
    (tb : Db.Table A) :
  (forall x, idcol (set x) = idcol x) ->
  NoDup (idcol <$> Db.rows tb) ->
  Db.rows (Db.update_returning idcol set id tb).2
  = match first (Db.update_returning idcol set id tb).1 with
    | Some s => replace_first idcol id s (Db.rows tb)
    | None => Db.rows tb
    end.
Proof.
  intros Hset. unfold Db.update_returning. simpl.
  generalize (Db.rows tb). clear tb. intros l.
  induction l as [|x l IH]; intros Hnd; [reflexivity|].
  rewrite fmap_cons in Hnd. apply NoDup_cons in Hnd as [Hx Hnd]. simpl.
  destruct (idcol x =? id) eqn:E.
  - apply Z.eqb_eq in E. rewrite filter_cons_True by (now rewrite Hset). simpl.
    f_equal. apply map_unmatched. subst id. now apply not_among_ids.
  - pose proof E as E'. apply Z.eqb_neq in E'. rewrite filter_cons_False by tauto.
    specialize (IH Hnd).
    destruct (first (filter (fun r => idcol r = id)
                       (map (fun r => if idcol r =? id then set r else r) l)));
      now rewrite IH.
Qed.

Lemma map_keeps_ids {A} (idcol : A -> Z) (set : A -> A) (id : Z) (l : list A) :
  (forall x, idcol (set x) = idcol x) ->
  idcol <$> map (fun r => if idcol r =? id then set r else r) l = idcol <$> l.
Proof.
  intros Hset. induction l as [|x l IH]; [reflexivity|].
  cbn [map]. rewrite !fmap_cons. f_equal; [|exact IH].
  now destruct (idcol x =? id).
Qed.

Lemma increasing_below_remove_first {A} (idcol : A -> Z) (next id : Z) (l : list A) :
  increasing_below next (idcol <$> l) ->
  increasing_below next (idcol <$> remove_first idcol id l).
Proof.
  intros H.
  destruct (findIndex_id idcol id l) as [[_ F] | (i & r & _ & Hfirst)].
  - now rewrite remove_first_missing.
  - rewrite <- (delete_remove_first _ _ _ _ _ Hfirst), list_fmap_delete.
    now apply increasing_below_delete.
Qed.

(** Each call keeps the identifiers of the tables distinct and does to each
    table what its effect says. *)
Lemma request_effect {rt : Runtime} {sc : Schema} (c : Requests.call)
    (w : World PostgresStorage.t) :
  tables_in_order (heap w) ->
  let (r, w') := Requests.exec c w in
  tables_in_order (heap w') /\
  Db.rows (PostgresStorage.salaries (heap w'))
  = after_effect Salary.id (Db.rows (PostgresStorage.salaries (heap w)))
      (Requests.salary_effect c r) /\
  Db.rows (PostgresStorage.expenses (heap w'))
  = after_effect Expense.id (Db.rows (PostgresStorage.expenses (heap w)))
      (Requests.expense_effect c r).
Proof.
  intros (Is & Ie).
  pose proof (increasing_below_NoDup _ _ Is) as Ns.
  pose proof (increasing_below_NoDup _ _ Ie) as Ne.
  destruct c;
    try (unfold Requests.exec, PostgresStorage.getSalaries, PostgresStorage.getExpenses,
           PostgresStorage.getIndianExpenses, PostgresStorage.createIndianExpense,
           PostgresStorage.deleteIndianExpense, bind, get, ret; simpl;
         split; [split; assumption | split; reflexivity]).
  - (* AddSalary *)
    unfold Requests.exec, PostgresStorage.addSalary, PostgresStorage.on_salaries,
      Date_new, bind, get, put, ret. simpl. unfold tables_in_order;
      cbn [Db.rows Db.serial PostgresStorage.salaries PostgresStorage.expenses heap].
    split; [split; [|exact Ie] | split; reflexivity].
    rewrite fmap_app. now apply increasing_below_push.
  - (* UpdateSalary *)
    pose proof (update_returning_replace_first Salary.id
                  (PostgresStorage.setSalary (UpdateSalary.values updateSalary))
                  (UpdateSalary.id updateSalary) (PostgresStorage.salaries (heap w))
                  (fun x => eq_refl) Ns) as Hrows.
    unfold Requests.exec, PostgresStorage.updateSalary, PostgresStorage.on_salaries,
      bind, get, put, ret.
    destruct (Db.update_returning Salary.id _ _ _) as [returned tb] eqn:Eu.
    assert (Hids : Salary.id <$> Db.rows tb
                   = Salary.id <$> Db.rows (PostgresStorage.salaries (heap w))
                   /\ Db.serial tb = Db.serial (PostgresStorage.salaries (heap w))).
    { unfold Db.update_returning in Eu. injection Eu as _ <-. simpl.
      split; [now apply map_keeps_ids | reflexivity]. }
    destruct Hids as [Hids Hserial]. simpl in Hrows.
    destruct (first returned); simpl; unfold tables_in_order;
      cbn [Db.rows Db.serial PostgresStorage.salaries PostgresStorage.expenses heap];
      (split; [split; [now rewrite Hids, Hserial | exact Ie]
              | split; [exact Hrows | reflexivity]]).
  - (* DeleteSalary *)
    unfold Requests.exec, PostgresStorage.deleteSalary, PostgresStorage.on_salaries,
      bind, get, put, ret. simpl. unfold tables_in_order;
      cbn [Db.rows Db.serial PostgresStorage.salaries PostgresStorage.expenses heap].
    rewrite (filter_remove_first Salary.id id _ Ns).
    split; [split; [|exact Ie] | split; reflexivity].
    now apply increasing_below_remove_first.
  - (* AddExpense *)
    unfold Requests.exec, PostgresStorage.addExpense, PostgresStorage.on_expenses,
      Date_of_or_now, Date_new, bind, get, put, ret.
    destruct (truthy (prop (ExpenseData.date insertExpense))); simpl; unfold tables_in_order;
      cbn [Db.rows Db.serial PostgresStorage.salaries PostgresStorage.expenses heap];
      (split; [split; [exact Is|] | split; reflexivity]);
      rewrite fmap_app; now apply increasing_below_push.
  - (* UpdateExpense *)
    pose proof (update_returning_replace_first Expense.id
                  (PostgresStorage.setExpense (UpdateExpense.values updateExpense))
                  (UpdateExpense.id updateExpense) (PostgresStorage.expenses (heap w))
                  (fun x => eq_refl) Ne) as Hrows.
    unfold Requests.exec, PostgresStorage.updateExpense, PostgresStorage.on_expenses,
      bind, get, put, ret.
    destruct (Db.update_returning Expense.id _ _ _) as [returned tb] eqn:Eu.
    assert (Hids : Expense.id <$> Db.rows tb
                   = Expense.id <$> Db.rows (PostgresStorage.expenses (heap w))
                   /\ Db.serial tb = Db.serial (PostgresStorage.expenses (heap w))).
    { unfold Db.update_returning in Eu. injection Eu as _ <-. simpl.
      split; [now apply map_keeps_ids | reflexivity]. }
    destruct Hids as [Hids Hserial]. simpl in Hrows.
    destruct (first returned); simpl; unfold tables_in_order;
      cbn [Db.rows Db.serial PostgresStorage.salaries PostgresStorage.expenses heap];
      (split; [split; [exact Is | now rewrite Hids, Hserial]
              | split; [reflexivity | exact Hrows]]).
  - (* DeleteExpense *)
    unfold Requests.exec, PostgresStorage.deleteExpense, PostgresStorage.on_expenses,
      bind, get, put, ret. simpl. unfold tables_in_order;
      cbn [Db.rows Db.serial PostgresStorage.salaries PostgresStorage.expenses heap].
    rewrite (filter_remove_first Expense.id id _ Ne).
    split; [split; [exact Is|] | split; reflexivity].
    now apply increasing_below_remove_first.
Qed.

Lemma requests_effects {rt : Runtime} {sc : Schema} (cs : list Requests.call)
    (w : World PostgresStorage.t) :
  tables_in_order (heap w) ->
  let (rs, w') := Requests.run cs w in
  Db.rows (PostgresStorage.salaries (heap w'))
  = fold_left (apply_effect Salary.id)
      (omap (fun h => Requests.salary_effect h.1 h.2) (zip cs rs))
      (Db.rows (PostgresStorage.salaries (heap w))) /\
  Db.rows (PostgresStorage.expenses (heap w'))
  = fold_left (apply_effect Expense.id)
      (omap (fun h => Requests.expense_effect h.1 h.2) (zip cs rs))
      (Db.rows (PostgresStorage.expenses (heap w))).
Proof.
  revert w. induction cs as [|c cs IH]; intros w Hw; [now split|].
  simpl. unfold bind at 1.
  pose proof (request_effect c w Hw) as Hc.
  destruct (Requests.exec c w) as [r w1]. unfold bind at 1.
  destruct Hc as (Hw1 & Hs & He).
  specialize (IH w1 Hw1). destruct (Requests.run cs w1) as [rs w2].
  unfold ret. change (zip (c :: cs) (r :: rs)) with ((c, r) :: zip cs rs).
  rewrite !fold_after_effect. destruct IH as (IHs & IHe).
  cbn [fst snd]. rewrite <- Hs, <- He. auto.
Qed.

(** ** C6: what a listing returns, and in which order *)

(** C6 does not hold as stated.  On an ephemeral backend whose clock is set
    back between two additions, the listing returns the two expenses in the
    order of their addition, and the first has the later creation time. *)
Lemma ephemeral_listing_after_clock_step :
  let cs := [Session.CreateExpense ExpenseData.empty;
             Session.CreateExpense ExpenseData.empty] in
  let w := (Session.run (rt := Sample.stepped_back) cs Session.start).2 in
  Expense.createdAt <$> (InMemoryStorage.getExpenses w).1
  = [VDate (Some 1700000005000); VDate (Some 1700000000001)] /\
  ~ Sorted (Db.by_time Expense.createdAt) (InMemoryStorage.getExpenses w).1.
Proof.
  split; [reflexivity|].
  intros Hs. vm_compute in Hs.
  inversion Hs as [|? ? _ Hhd]; subst. inversion Hhd as [|? ? Hle]; subst.
  vm_compute in Hle. now apply Hle.
Qed.

(** C6 (as the code has it).  After any sequence of calls on a fresh backend,
    a listing returns the surviving records: those added and not deleted,
    each as last updated.  The persistent backend returns them sorted by
    creation timestamp, ascending.  The ephemeral backend returns them in
    the order in which they were added, which is ascending order of creation
    timestamp provided the clock never runs backwards. *)
Theorem listing_returns_survivors {rt : Runtime} {sc : Schema} :
  (forall cs : list Requests.call,
     let (rs, w) := Requests.run cs Requests.start in
     Permutation (PostgresStorage.getSalaries w).1 (Requests.surviving_salaries cs rs) /\
     Sorted (Db.by_time Salary.createdAt) (PostgresStorage.getSalaries w).1 /\
     Permutation (PostgresStorage.getExpenses w).1 (Requests.surviving_expenses cs rs) /\
     Sorted (Db.by_time Expense.createdAt) (PostgresStorage.getExpenses w).1) /\
  (forall cs : list Session.call,
     let (rs, w) := Session.run cs Session.start in
     (InMemoryStorage.getSalaries w).1 = Session.surviving_salaries cs rs /\
     (InMemoryStorage.getExpenses w).1 = Session.surviving_expenses cs rs /\
     (InMemoryStorage.getIndianExpenses w).1 = Session.surviving_indianExpenses cs rs /\
     (monotone_clock ->
      Sorted (Db.by_time Salary.createdAt) (InMemoryStorage.getSalaries w).1 /\
      Sorted (Db.by_time Expense.createdAt) (InMemoryStorage.getExpenses w).1 /\
      Sorted (Db.by_time Expense.createdAt) (InMemoryStorage.getIndianExpenses w).1)).
Proof.
  split.
  - intros cs.
    assert (Hstart : tables_in_order (heap Requests.start)).
    { split; (split; [simpl; lia | split; constructor]). }
    pose proof (requests_effects cs Requests.start Hstart) as H.
    destruct (Requests.run cs Requests.start) as [rs w].
    destruct H as (Hs & He).
    unfold PostgresStorage.getSalaries, PostgresStorage.getExpenses, bind, get, ret,
      Requests.surviving_salaries, Requests.surviving_expenses, survivors. simpl.
    destruct (select_orderBy_sorted Salary.createdAt (PostgresStorage.salaries (heap w)))
      as [Ss Ps].
    destruct (select_orderBy_sorted Expense.createdAt (PostgresStorage.expenses (heap w)))
      as [Se Pe].
    rewrite Hs in Ps. rewrite He in Pe. auto.
  - intros cs.
    pose proof (run_effects cs Session.start) as H.
    pose proof (fun Hclock =>
                  run_in_creation_order cs Session.start Hclock start_in_creation_order)
      as Hord.
    destruct (Session.run cs Session.start) as [rs w].
    destruct H as (Hs & He & Hi).
    unfold InMemoryStorage.getSalaries, InMemoryStorage.getExpenses,
      InMemoryStorage.getIndianExpenses, bind, get, ret. simpl.
    split; [exact Hs|]. split; [exact He|]. split; [exact Hi|].
    intros Hclock. destruct (Hord Hclock) as ([Os _] & [Oe _] & [Oi _]).
    split; [|split]; now apply sorted_by_stamps.
Qed.

Lemma listing_returns_survivors_witness :
  monotone_clock (rt := Sample.runtime) /\
  let cs := [Session.CreateSalary SalaryData.empty;
             Session.AddSalary (SalaryData.mk (Some (VString "2500")) (Some (VString "Jan"))
                                  None None (Some (VString "2024-01-15")));
             Session.CreateSalary SalaryData.empty;
             Session.UpdateSalary 1 (SalaryData.mk (Some (VInt 900)) None None None None);
             Session.DeleteSalary 2] in
  let w := (Session.run (rt := Sample.runtime) cs Session.start).2 in
  Salary.id <$> (InMemoryStorage.getSalaries w).1 = [1; 3] /\
  Salary.amount <$> (InMemoryStorage.getSalaries w).1 = [VInt 900; VInt 0] /\
  Sorted (Db.by_time Salary.createdAt) (InMemoryStorage.getSalaries w).1.
Proof.
  assert (Hclock : monotone_clock (rt := Sample.runtime)).
  { intros i j Hij. simpl. lia. }
  split; [exact Hclock|]. intros cs w.
  split; [reflexivity|]. split; [reflexivity|].
  destruct (listing_returns_survivors (rt := Sample.runtime) (sc := Sample.schema))
    as [_ Hmem].
  specialize (Hmem cs). unfold w.
  destruct (Session.run (rt := Sample.runtime) cs Session.start) as [rs w0].
  destruct Hmem as (_ & _ & _ & Hsorted). simpl. now apply Hsorted.
Defined.
